(* ===== verification/_CoqProject ===== *)
-Q . S2P
Prelude.v
PyStr.v
PyRuntime.v
Keywords.v
Caption.v
Hashtags.v
App.v
Loading.v
