(* ===== verification/Prelude.v ===== *)
(** * A verification development of the Insta caption assistant

    The repository is a small Python program, [src/caption_utils.py] and
    [src/app.py], that turns a text or an uploaded image into a short
    social-media caption and a list of hashtags.  Its parts, leaves first:

    - the keyword extractor [extract_keywords] (caption_utils.py 60-72):
      runs the spaCy pipeline on the lower-cased text, keeps non-stop-word
      nouns and proper nouns and the noun chunks of at most three words,
      and returns [list(set(keywords))];
    - the caption generators [caption_from_text] (28-38), which summarises
      the prompt with BART, extracts keywords of the summary, takes the first
      one (or ["moment"]) and formats a template chosen by [random.choice]
      from [CAPTION_TEMPLATES] (14-25), and [caption_from_image] (41-57),
      which decodes the image, asks BLIP for three sequences and keeps the
      one with the most whitespace-separated words;
    - the hashtag suggester [suggest_hashtags] (75-95): re-reads
      [hashtags.json] on every call, collects the hashtags of the exact and
      of the substring-related keys, appends [random.sample] of three
      ["_trending"] tags and returns [list(set(matched))[:30]] with the
      keywords;
    - the Streamlit script [app.py], re-run on every interaction, which
      calls the generators and stores the results in [st.session_state]
      (42-70) and renders them with a download text (72-97);
    - the import of [caption_utils] ([app.py] line 2), whose top level
      loads the four models (caption_utils.py 7-11) once per process when
      it succeeds.

    The components interact by plain calls; the shared state is the Python
    [random] generator (advanced by [random.choice] and then by
    [random.sample]), the torch generator used by the sampling summariser,
    the file [hashtags.json] and the Streamlit session state.

    ** Files
    - [Prelude] (this file): Python strings as lists of code points
      ([pystr]), Python exceptions ([exc]) and a result monad ([res]) with
      its bind notation in [py_scope], the hint database [py], the tactics
      and the generic list lemmas the components share.
    - [PyStr]: the [str] methods the code calls, translated from CPython's
      semantics: [str.isspace], [str.split()] ([py_split]), [len(s.split())]
      ([word_count]), the substring test [a in b] ([py_contains]),
      [sep.join] ([py_join]) and [str.format] for auto-numbered fields
      ([py_format]).  CPython's index loop for [str.split()]
      ([split_ws_loop], with fuel) is proved equal to [py_split], as a
      check of that translation.
    - [PyRuntime]: the library behaviour the code relies on, stated as
      interfaces (type classes) with their laws: set iteration order
      ([SetOrder], CPython's hash order is randomised per process), the
      [random] module ([RandomSource], [py_choice], [py_sample]) and
      [max(xs, key=f)] ([py_max_key], first maximal element, checked
      against a reference definition), with a
      concrete instance of each for evaluation and a second set order
      ([rev_order]) to compare runs under two hash seeds.
    - [Keywords]: the spaCy document ([Doc], [Token], [POS]) and the
      [NlpModel] interface; [extract_keywords] and its membership and
      deduplication theorems, and its independence (up to permutation,
      each keyword once) from the set order.
    - [Caption]: [CAPTION_TEMPLATES], [caption_from_text],
      [caption_from_image] with the [Summarizer] and [Captioner]
      interfaces; the theorems on template instantiation (each template is
      a format string with exactly one field), the choice of the first
      keyword or ["moment"], uniqueness of the template shape of a caption,
      the error paths, the length of a caption, the longest-candidate
      choice, and the dependence of the caption on the set order for any
      tagger with two distinct keyword candidates.
    - [Hashtags]: the dictionary ([HashtagDict]), the file system and
      [suggest_hashtags]; bounds (at most 30, no duplicates), membership of
      exact and related matches and trending tags, error paths (the
      [TypeError]s of values that cannot be iterated included), the
      effects of duplicate trending entries and of keywords inside the
      reserved key, and the set-level contract [suggest_contract] that
      [suggest_hashtags] refines.
    - [App]: the Streamlit session state as a record, one script run as a
      function [app_run], the reachable states as [rtc] of the run relation,
      the session invariant and error atomicity; an abstract session
      machine [spec_step] that the script refines (each run is one abstract
      step, lifted to runs of any length); progress of a click.
    - [Loading]: the model loads of the module top level, the import on
      line 2 of [app.py] with Python's module cache ([Proc], [script_run]),
      and traces of reruns ([script_trace]): the models load once when all
      of them can be loaded, and every rerun fails at the import otherwise.

    ** What the theorems show (see PROJECT.json for the list)
    - functional behaviour of each operation on each branch, errors
      included (undecodable image, empty population for [random.sample],
      missing dictionary file);
    - bounds: at most 30 hashtags, no duplicates, for every dictionary;
    - the membership characterisation of keywords and hashtags;
    - that each caption determines its template and keyword (keywords come
      from lower-cased text, so they have no upper-case letter);
    - that the session state of the app is always complete and that a
      failing run leaves it unchanged;
    - refinement: [suggest_hashtags] implements a contract stated on sets
      (candidates as a predicate, the result all of them or thirty), and
      the script implements an abstract machine over sessions whose steps
      keep the session or store a filled template (text) or the caption of
      the uploaded file (image) with hashtags meeting that contract;
    - liveness: from any state a click whose model calls return, with a
      usable [hashtags.json], renders a page with the new caption;
    - what the specification does not say, as theorems over every model
      instance: the caption keyword depends on the set order; a trending
      list with repeated entries gives fewer than three trending hashtags;
      a keyword inside ["_trending"] brings in the whole trending list;
      the keywords of a text run are those of the filled template.

    ** Evaluation instances
    Each component file ends with a module ([KeywordFixtures],
    [CaptionFixtures], [HashtagFixtures], [AppFixtures],
    [LoadingFixtures]) of concrete
    instances of the interfaces (a lexicon tagger, an echoing summariser,
    a captioner whose image is its candidate list, a dictionary decoder, a
    linear congruential [random] state) on which the definitions run by
    [vm_compute]; the witnesses of the theorems live there.  They are not
    models of spaCy, BART or BLIP, and no theorem about the program rests
    on their particular analysis.

    ** What is not modelled
    The neural models (spaCy, BART, BLIP), PIL's decoder, JSON decoding and
    Streamlit's rendering are opaque: each is a field of an interface whose
    laws state only what the code relies on.  Unicode case mapping
    ([str.lower]) is part of the [NlpModel] interface.  The elements of a
    JSON array in [hashtags.json] are taken to be strings (a number there
    would reach [set()] and [" ".join] of [app.py]).  When a model call
    raises, the generator state it may have consumed is not tracked.  The
    page layout of [app.py] (lines 3-33) is presentation only; a model's
    availability is fixed for a whole trace of reruns.  The data file
    [hashtags.json] is not in the repository: it enters only as the
    dictionary a [JsonLoader] decodes.  Set iteration order and the
    Mersenne Twister behind [random] stay interfaces ([SetOrder],
    [RandomSource]): the program fixes neither the hash seed nor the
    generator state, so their laws are all it can rely on; CPython's
    [random.sample] algorithms are therefore not translated.

    ** Fuel
    The program's own functions are structurally recursive or folds over
    finite lists.  The one loop translated with fuel is CPython's
    [split_whitespace] ([split_ws_loop]), used only to check [py_split]:
    each of its loops advances the index, and [split_ws_loop_ok] proves
    that any fuel above [len(s) - i] gives the words of [py_split].

    ** Plan for the next steps
    Every part of the program is modelled except the page layout, which
    only sets presentation, and the data file, which the repository does
    not ship.  Dictionary values of every JSON kind are modelled (arrays
    of strings, strings, objects, scalars), with the [TypeError]s of
    [matched += ...] and of [random.sample].  What could still be added:
    arrays with non-string elements, and the availability of a model
    changing between reruns. *)

From Stdlib Require Export NArith String Ascii.
From stdpp Require Export base list decidable.

Declare Scope py_scope.
Delimit Scope py_scope with py.
Open Scope py_scope.

(** ** Python strings *)

(** A Python [str] is a sequence of Unicode code points. *)
Abbreviation pystr := (list N).

(** A literal: an ASCII Rocq string read as code points. *)
Definition u (s : string) : pystr :=
  map (fun c => N.of_nat (nat_of_ascii c)) (list_ascii_of_string s).

(** ** Python exceptions and the result monad *)

Inductive exc : Type :=
  | ValueError
  | IndexError
  | KeyError
  | TypeError
  | FileNotFoundError
  | JSONDecodeError
  | UnidentifiedImageError
  | ModelError
  | AttributeError
  | OSError
  | Unsupported.

#[export] Instance exc_eq_dec : EqDecision exc.
Proof. solve_decision. Defined.

Inductive res (A : Type) : Type :=
  | Ok (a : A)
  | Raise (e : exc).
Arguments Ok {A} a.
Arguments Raise {A} e.

Definition res_bind {A B} (r : res A) (k : A -> res B) : res B :=
  match r with
  | Ok a => k a
  | Raise e => Raise e
  end.

Notation "x <- r ;; k" := (res_bind r (fun x => k))
  (at level 100, r at next level, right associativity) : py_scope.

Definition is_ok {A} (r : res A) : bool :=
  match r with Ok _ => true | Raise _ => false end.

Lemma res_bind_ok {A B} (a : A) (k : A -> res B) : res_bind (Ok a) k = k a.
Proof. reflexivity. Qed.

Lemma res_bind_raise {A B} e (k : A -> res B) : res_bind (Raise e) k = Raise e.
Proof. reflexivity. Qed.

Lemma res_bind_eq_ok {A B} (r : res A) (k : A -> res B) b :
  res_bind r k = Ok b -> exists a, r = Ok a /\ k a = Ok b.
Proof. destruct r; simpl; [eauto | discriminate]. Qed.

Create HintDb py.
Create Rewrite HintDb py_rw.
#[export] Hint Rewrite @res_bind_ok @res_bind_raise : py_rw.

(** ** Tactics *)

(** Case on the scrutinee of the first [match] or [if] of the goal. *)
Ltac case_match_goal :=
  match goal with
  | |- context [match ?x with _ => _ end] =>
      let E := fresh "E" in destruct x eqn:E
  end.

(** Split a successful bind in a hypothesis. *)
Ltac inv_bind :=
  repeat match goal with
  | H : res_bind ?r _ = Ok _ |- _ =>
      let a := fresh "a" in let Ha := fresh "Ha" in
      apply res_bind_eq_ok in H as [a [Ha H]]
  | H : Ok _ = Ok _ |- _ => injection H as H
  end.

(** ** Generic list lemmas *)

Lemma NoDup_take {A} (n : nat) (l : list A) : NoDup l -> NoDup (take n l).
Proof.
  intros Hl. exact (sublist_NoDup _ _ Hl (sublist_take l n)).
Qed.

Lemma elem_of_take_in {A} (n : nat) (l : list A) x : x ∈ take n l -> x ∈ l.
Proof. intros Hx. exact (elem_of_sublist _ _ x Hx (sublist_take l n)). Qed.

(** A duplicate-free list shorter than the bound loses nothing when taken. *)
Lemma take_short {A} (n : nat) (l : list A) : length l <= n -> take n l = l.
Proof. apply take_ge. Qed.

#[export] Hint Resolve NoDup_take elem_of_take_in : py.

(** ** Lists as sets

    Two lists with the same members; the equivalence under which the
    outputs of [list(set(...))] are compared. *)
Definition same_elems {A} (l1 l2 : list A) : Prop := forall x, x ∈ l1 <-> x ∈ l2.

#[export] Instance same_elems_equiv {A} : Equivalence (@same_elems A).
Proof.
  split; unfold same_elems.
  - intros l x. reflexivity.
  - intros l1 l2 H x. by rewrite H.
  - intros l1 l2 l3 H1 H2 x. by rewrite H1, H2.
Qed.

#[export] Instance app_same_elems_proper {A} :
  Proper (same_elems ==> same_elems ==> same_elems) (@app A).
Proof. intros l1 l1' H1 l2 l2' H2 x. rewrite !elem_of_app. by rewrite (H1 x), (H2 x). Qed.
