(* ===== verification/PyStr.v ===== *)
(** * The [str] operations the program calls

    Translations of CPython's string semantics on code-point lists:
    [str.isspace] ([py_isspace]), [str.split()] without arguments
    ([py_split], the word splitting of [caption_utils.py] lines 57 and 69),
    the substring test [a in b] ([py_contains], line 89), [sep.join]
    ([py_join], [app.py] lines 81, 84, 91) and [str.format] restricted to
    auto-numbered fields ([py_format], line 38).  Each comes with the lemmas
    the components use.  CPython's own index loop for [str.split()]
    ([split_ws_loop]) is translated with fuel and proved to agree with
    [py_split] given enough fuel, a check of that translation. *)

From S2P Require Import Prelude.

Local Open Scope N_scope.

(** ** [str.isspace] on one code point

    The code points whose [str.isspace()] is true in CPython (bidirectional
    class WS, B or S, or general category Zs). *)
Definition py_isspace (c : N) : bool :=
  ((9 <=? c) && (c <=? 13)) || ((28 <=? c) && (c <=? 32)) ||
  (c =? 133) || (c =? 160) || (c =? 5760) ||
  ((8192 <=? c) && (c <=? 8202)) ||
  (c =? 8232) || (c =? 8233) || (c =? 8239) || (c =? 8287) || (c =? 12288).

(** ** [str.split()] with no separator

    CPython's [split_whitespace]: runs of whitespace separate the words,
    leading and trailing whitespace produce no empty word.  [cur] is the
    word being read, reversed. *)
Fixpoint split_go (s cur : pystr) : list pystr :=
  match s with
  | [] => match cur with [] => [] | _ => [rev cur] end
  | c :: s' =>
      if py_isspace c then
        match cur with
        | [] => split_go s' []
        | _ => rev cur :: split_go s' []
        end
      else split_go s' (c :: cur)
  end.

Definition py_split (s : pystr) : list pystr := split_go s [].

(** [len(x.split())] *)
Definition word_count (s : pystr) : nat := length (py_split s).

(** ** [needle in haystack] on strings *)

Fixpoint py_startswith (p s : pystr) : bool :=
  match p, s with
  | [], _ => true
  | a :: p', b :: s' => (a =? b)%N && py_startswith p' s'
  | _ :: _, [] => false
  end.

Fixpoint py_contains (needle hay : pystr) : bool :=
  py_startswith needle hay ||
  match hay with
  | [] => false
  | _ :: hay' => py_contains needle hay'
  end.

(** ** [sep.join(xs)] *)
Fixpoint py_join (sep : pystr) (xs : list pystr) : pystr :=
  match xs with
  | [] => []
  | [x] => x
  | x :: xs' => x ++ sep ++ py_join sep xs'
  end.

(** ** [str.format] with auto-numbered fields

    The format string is read left to right: ["{{"] and ["}}"] are escaped
    braces, ["{}"] is replaced by the next positional argument (an
    [IndexError] when there is none), a ["{"] at the end of the string and a
    single ["}"] are a [ValueError].  Fields with a name, an index, a
    conversion or a format spec are outside the modelled fragment
    ([Unsupported]); the program's templates have none. *)
Definition lbrace : N := 123.
Definition rbrace : N := 125.

Fixpoint format_go (t : pystr) (args : list pystr) (i : nat) : res pystr :=
  match t with
  | [] => Ok []
  | c :: t' =>
      if (c =? lbrace)%N then
        match t' with
        | [] => Raise ValueError
        | d :: t'' =>
            if (d =? lbrace)%N then
              r <- format_go t'' args i ;; Ok (lbrace :: r)
            else if (d =? rbrace)%N then
              match nth_error args i with
              | None => Raise IndexError
              | Some a => r <- format_go t'' args (S i) ;; Ok (a ++ r)
              end
            else Raise Unsupported
        end
      else if (c =? rbrace)%N then
        match t' with
        | d :: t'' =>
            if (d =? rbrace)%N then r <- format_go t'' args i ;; Ok (rbrace :: r)
            else Raise ValueError
        | [] => Raise ValueError
        end
      else r <- format_go t' args i ;; Ok (c :: r)
  end.

Definition py_format (t : pystr) (args : list pystr) : res pystr :=
  format_go t args 0.

(** A string with no brace. *)
Definition brace_free (s : pystr) : bool :=
  forallb (fun c => negb ((c =? lbrace)%N || (c =? rbrace)%N)) s.

(** ** CPython's [split_whitespace] loop

    The index loop of [Objects/stringlib/split.h] behind [str.split()]:
    [i] runs over the string; the whitespace before a word is skipped
    ([while (i < str_len && ISSPACE(str[i])) i++]), the loop stops at the
    end of the string, otherwise the word [str[j:i]] is read up to the next
    whitespace and added.  [fuel] bounds the iterations of each loop; it
    is a bound only, every iteration advances [i]. *)
Fixpoint skip_space (fuel : nat) (s : pystr) (i : nat) : option nat :=
  match fuel with
  | O => None
  | S f =>
      match s !! i with
      | Some c => if py_isspace c then skip_space f s (S i) else Some i
      | None => Some i
      end
  end.

Fixpoint skip_word (fuel : nat) (s : pystr) (i : nat) : option nat :=
  match fuel with
  | O => None
  | S f =>
      match s !! i with
      | Some c => if py_isspace c then Some i else skip_word f s (S i)
      | None => Some i
      end
  end.

Fixpoint split_ws_loop (fuel : nat) (s : pystr) (i : nat) : option (list pystr) :=
  match fuel with
  | O => None
  | S f =>
      match skip_space fuel s i with
      | None => None
      | Some i1 =>
          if Nat.eqb i1 (length s) then Some []
          else match skip_word fuel s (S i1) with
               | None => None
               | Some i2 =>
                   match split_ws_loop f s i2 with
                   | None => None
                   | Some ws => Some (take (i2 - i1) (drop i1 s) :: ws)
                   end
               end
      end
  end.

(** The loop from index 0 with one iteration per code point, and one to
    see the end. *)
Definition split_whitespace (s : pystr) : option (list pystr) :=
  split_ws_loop (S (length s)) s 0.

(** ** Lemmas *)

Section Lemmas.

Lemma py_startswith_spec p s :
  py_startswith p s = true <-> exists r, s = p ++ r.
Proof.
  revert s; induction p as [|a p IH]; intros [|b s]; simpl.
  - split; eauto.
  - split; eauto.
  - split; [discriminate | intros [r Hr]; discriminate].
  - rewrite andb_true_iff, N.eqb_eq, IH. split.
    + intros [-> [r ->]]. eauto.
    + intros [r Hr]. injection Hr as -> ->. eauto.
Qed.

Lemma py_contains_spec n h :
  py_contains n h = true <-> exists p s, h = p ++ n ++ s.
Proof.
  induction h as [|c h IH]; simpl; rewrite orb_true_iff, py_startswith_spec.
  - split.
    + intros [[r Hr] | H]; [exists [], r; exact Hr | discriminate].
    + intros [[|? p] [s Hs]]; [left; exists s; exact Hs | discriminate].
  - rewrite IH. split.
    + intros [[r Hr] | [p [s ->]]]; [exists [], r; exact Hr | exists (c :: p), s; done].
    + intros [[|d p] [s Hs]]; [left; exists s; exact Hs |].
      injection Hs as -> ->. right. eauto.
Qed.

(** The empty string is in every string: [("" in key)] is always true. *)
Lemma py_contains_nil h : py_contains [] h = true.
Proof. destruct h; reflexivity. Qed.

Lemma py_contains_refl s : py_contains s s = true.
Proof. apply py_contains_spec. exists [], []. by rewrite app_nil_r. Qed.

Lemma brace_free_app s1 s2 :
  brace_free (s1 ++ s2) = brace_free s1 && brace_free s2.
Proof. apply forallb_app. Qed.

(** Formatting a brace-free prefix copies it. *)
Lemma format_go_brace_free_app p t args i :
  brace_free p = true ->
  format_go (p ++ t) args i = (r <- format_go t args i ;; Ok (p ++ r)).
Proof.
  induction p as [|c p IH]; simpl; intros Hp.
  - by destruct (format_go t args i).
  - apply andb_true_iff in Hp as [Hc Hp].
    apply negb_true_iff, orb_false_iff in Hc as [-> ->].
    rewrite IH by exact Hp. by destruct (format_go t args i).
Qed.

Lemma format_go_brace_free s args i :
  brace_free s = true -> format_go s args i = Ok s.
Proof.
  intros Hs. rewrite <- (app_nil_r s), format_go_brace_free_app by exact Hs.
  reflexivity.
Qed.

(** A template with one ["{}"] between brace-free text is instantiated by
    its first argument, inserted literally. *)
Lemma py_format_one_field p s a rest :
  brace_free p = true -> brace_free s = true ->
  py_format (p ++ [lbrace; rbrace] ++ s) (a :: rest) = Ok (p ++ a ++ s).
Proof.
  intros Hp Hs. unfold py_format.
  rewrite format_go_brace_free_app by exact Hp. simpl.
  rewrite format_go_brace_free by exact Hs. reflexivity.
Qed.

(** [py_split] never yields an empty word. *)
Lemma split_go_nonempty s cur w :
  w ∈ split_go s cur -> w <> [].
Proof.
  revert cur; induction s as [|c s IH]; intros cur; simpl.
  - destruct cur as [|d cur]; [by intros ?%elem_of_nil |].
    intros ->%list_elem_of_singleton.
    intros Hr. apply (f_equal (@length N)) in Hr. rewrite length_rev in Hr. done.
  - destruct (py_isspace c); [destruct cur as [|d cur] |]; eauto.
    intros [-> | Hw]%elem_of_cons; eauto.
    intros Hr. apply (f_equal (@length N)) in Hr. rewrite length_rev in Hr. done.
Qed.

Lemma split_go_word w rest cur :
  forallb (fun c => negb (py_isspace c)) w = true ->
  split_go (w ++ rest) cur = split_go rest (rev w ++ cur).
Proof.
  revert cur; induction w as [|c w IH]; intros cur Hw; [done |].
  simpl in Hw. apply andb_true_iff in Hw as [Hc Hw]. apply negb_true_iff in Hc.
  simpl. rewrite Hc, IH by exact Hw. by rewrite <- app_assoc.
Qed.

Lemma rev_nonempty (w : pystr) : w <> [] -> rev w <> [].
Proof. intros Hw Hr. apply Hw. apply (f_equal (@rev N)) in Hr. by rewrite rev_involutive in Hr. Qed.

(** *** The index loop computes [py_split] *)

Lemma drop_lookup (s : pystr) i c : s !! i = Some c -> drop i s = c :: drop (S i) s.
Proof. apply drop_S. Qed.

Lemma skip_space_ok fuel s i :
  (length s - i < fuel)%nat -> (i <= length s)%nat ->
  exists i1, skip_space fuel s i = Some i1 /\ (i <= i1 <= length s)%nat /\
    split_go (drop i s) [] = split_go (drop i1 s) [] /\
    (forall c, s !! i1 = Some c -> py_isspace c = false).
Proof.
  revert i; induction fuel as [|f IH]; intros i Hf Hi; [lia |]. cbn [skip_space].
  destruct (s !! i) as [c |] eqn:E.
  - pose proof (lookup_lt_Some _ _ _ E) as Hlt.
    destruct (py_isspace c) eqn:Hc.
    + destruct (IH (S i)) as (i1 & -> & Hle & Heq & Hns); [lia | lia |].
      exists i1. split; [done |]. split; [lia |]. split; [| done].
      rewrite (drop_lookup s i c E). cbn [split_go]. by rewrite Hc.
    + exists i. split; [done |]. split; [lia |]. split; [done |].
      intros c' Hc'. congruence.
  - exists i. split; [done |]. apply lookup_ge_None in E. split; [lia |].
    split; [done |]. intros c Hc. apply lookup_lt_Some in Hc. lia.
Qed.

Lemma skip_word_ok fuel s i :
  (length s - i < fuel)%nat -> (i <= length s)%nat ->
  exists i2 w, skip_word fuel s i = Some i2 /\ (i <= i2 <= length s)%nat /\
    drop i s = w ++ drop i2 s /\ length w = (i2 - i)%nat /\
    forallb (fun c => negb (py_isspace c)) w = true /\
    (drop i2 s = [] \/ exists sp r, drop i2 s = sp :: r /\ py_isspace sp = true).
Proof.
  revert i; induction fuel as [|f IH]; intros i Hf Hi; [lia |]. cbn [skip_word].
  destruct (s !! i) as [c |] eqn:E.
  - pose proof (lookup_lt_Some _ _ _ E) as Hlt.
    destruct (py_isspace c) eqn:Hc.
    + exists i, []. split; [done |]. split; [lia |]. split; [done |].
      split; [simpl; lia |]. split; [done |]. right. exists c, (drop (S i) s).
      split; [exact (drop_lookup s i c E) | exact Hc].
    + destruct (IH (S i)) as (i2 & w & -> & Hle & Hd & Hl & Hw & Hb); [lia | lia |].
      exists i2, (c :: w). split; [done |]. split; [lia |].
      split; [by rewrite (drop_lookup s i c E), Hd |].
      split; [simpl; lia |]. split; [| exact Hb]. simpl. by rewrite Hc, Hw.
  - apply lookup_ge_None in E. exists i, []. split; [done |]. split; [lia |].
    rewrite drop_ge by lia. split; [done |]. split; [simpl; lia |]. split; [done | by left].
Qed.

(** A word followed by the end or by whitespace is emitted whole. *)
Lemma split_go_boundary w rest :
  w <> [] -> (rest = [] \/ exists sp r, rest = sp :: r /\ py_isspace sp = true) ->
  split_go rest (rev w) = w :: split_go rest [].
Proof.
  intros Hw [-> | (sp & r & -> & Hsp)]; cbn [split_go]; [| rewrite Hsp];
    destruct (rev w) eqn:E; try exact (False_ind _ (rev_nonempty w Hw E));
    rewrite <- E, rev_involutive; done.
Qed.

Lemma split_ws_loop_ok fuel s i :
  (length s - i < fuel)%nat -> (i <= length s)%nat ->
  split_ws_loop fuel s i = Some (split_go (drop i s) []).
Proof.
  revert i; induction fuel as [|f IH]; intros i Hf Hi; [lia |]. cbn [split_ws_loop].
  destruct (skip_space_ok (S f) s i Hf Hi) as (i1 & -> & Hle & Heq & Hns).
  rewrite Heq. destruct (Nat.eqb_spec i1 (length s)) as [-> | Hne].
  - by rewrite drop_ge.
  - destruct (lookup_lt_is_Some_2 s i1) as [c Hc]; [lia |].
    pose proof (Hns c Hc) as Hcs.
    destruct (skip_word_ok (S f) s (S i1)) as (i2 & w & -> & Hle2 & Hd & Hl & Hw & Hb); [lia | lia |].
    rewrite IH by lia. f_equal.
    rewrite (drop_lookup s i1 c Hc), Hd.
    rewrite app_comm_cons, (take_app_length' (c :: w)) by (simpl; lia).
    cbn [app split_go]. rewrite Hcs, split_go_word by exact Hw.
    change (rev w ++ [c]) with (rev (c :: w)).
    by rewrite split_go_boundary.
Qed.

End Lemmas.

#[export] Hint Resolve py_contains_nil py_contains_refl : py.
