(* ===== verification/PyRuntime.v ===== *)
(** * The runtime behaviour the program relies on

    Three library facilities the code calls, each as an interface whose
    laws are what CPython guarantees, with a concrete instance so that the
    definitions evaluate:
    - [SetOrder]: [list(set(xs))] ([caption_utils.py] lines 72 and 95).  The
      iteration order of a set of strings depends on the per-process hash
      seed, so only its membership and the absence of duplicates are laws;
      [remove_dups_order] and [rev_order] are two orders it may produce.
    - [RandomSource]: the global generator of the [random] module, threaded
      as explicit state; [py_choice] is [random.choice] (line 37) and
      [py_sample] is [random.sample] (line 93), with CPython's guards.
    - [py_max_key]: [max(xs, key=f)] (line 57), which keeps the first
      element of maximal key; proved equal to a reference definition. *)

From S2P Require Import Prelude.

(** ** [list(set(xs))] on strings *)

Class SetOrder := {
  set_list : list pystr -> list pystr;
  set_list_NoDup l : NoDup (set_list l);
  set_list_elem l x : x ∈ set_list l <-> x ∈ l
}.

(** An order CPython may produce: one copy of each element. *)
#[export] Program Instance remove_dups_order : SetOrder := {
  set_list := remove_dups
}.
Next Obligation. intros l. apply NoDup_remove_dups. Qed.
Next Obligation. intros l x. apply elem_of_remove_dups. Qed.

(** A second order CPython may produce: the same elements reversed.  Not
    an instance: it is passed explicitly where two orders are compared. *)
Program Definition rev_order : SetOrder := {| set_list l := reverse (remove_dups l) |}.
Next Obligation. intros l. rewrite reverse_Permutation. apply NoDup_remove_dups. Qed.
Next Obligation. intros l x. by rewrite elem_of_reverse, elem_of_remove_dups. Qed.

(** [len(set(xs))]: the number of distinct elements, at most [len(xs)]. *)
Lemma set_list_length_le `{SetOrder} l : length (set_list l) <= length l.
Proof.
  apply submseteq_length, NoDup_submseteq; [apply set_list_NoDup |].
  intros x. apply set_list_elem.
Qed.

Lemma set_list_length_NoDup `{SetOrder} l : NoDup l -> length (set_list l) = length l.
Proof.
  intros Hl. apply Permutation_length, NoDup_Permutation; [apply set_list_NoDup | done |].
  intros x. apply set_list_elem.
Qed.

#[export] Hint Resolve set_list_NoDup set_list_length_le : py.

(** ** The [random] module *)

(** [randbelow n] is CPython's [Random._randbelow]: a number below [n].
    [sample_indices n k] are the positions [random.sample] picks from a
    population of [n]: [k] distinct positions below [n] (CPython's pool and
    set algorithms both satisfy this law). *)
Class RandomSource := {
  rng_state : Type;
  randbelow : nat -> rng_state -> nat * rng_state;
  randbelow_lt n s : 0 < n -> (randbelow n s).1 < n;
  sample_indices : nat -> nat -> rng_state -> list nat * rng_state;
  sample_indices_length n k s : k <= n -> length (sample_indices n k s).1 = k;
  sample_indices_NoDup n k s : k <= n -> NoDup (sample_indices n k s).1;
  sample_indices_lt n k s : k <= n -> Forall (fun i => i < n) (sample_indices n k s).1
}.

Section Random.
Context `{RandomSource}.

(** [random.choice(seq)]: [IndexError] on an empty sequence. *)
Definition py_choice {A} (seq : list A) (s : rng_state) : res (A * rng_state) :=
  match seq with
  | [] => Raise IndexError
  | _ =>
      let '(i, s') := randbelow (length seq) s in
      match seq !! i with
      | Some x => Ok (x, s')
      | None => Raise IndexError
      end
  end.

(** [random.sample(population, k)]: [ValueError] when [k] exceeds the
    population ("Sample larger than population or is negative"). *)
Definition py_sample {A} (pop : list A) (k : nat) (s : rng_state)
    : res (list A * rng_state) :=
  if decide (length pop < k) then Raise ValueError
  else
    let '(ix, s') := sample_indices (length pop) k s in
    Ok (omap (fun i => pop !! i) ix, s').

Lemma py_choice_ok {A} (seq : list A) s :
  seq <> [] -> exists x s', py_choice seq s = Ok (x, s') /\ x ∈ seq.
Proof.
  intros Hne. unfold py_choice.
  assert (Hlt : (randbelow (length seq) s).1 < length seq).
  { apply randbelow_lt. destruct seq; [done | simpl; lia]. }
  destruct seq as [|a l]; [done |].
  destruct (randbelow (length (a :: l)) s) as [i s'] eqn:E; simpl in Hlt.
  destruct (lookup_lt_is_Some_2 (a :: l) i Hlt) as [x Hx].
  rewrite Hx. exists x, s'. split; [done |]. by eapply list_elem_of_lookup_2.
Qed.

Lemma omap_lookup_length {A} (pop : list A) (ix : list nat) :
  Forall (fun i => i < length pop) ix ->
  length (omap (fun i => pop !! i) ix) = length ix.
Proof.
  induction 1 as [|i ix Hi _ IH]; [done |]. simpl.
  destruct (lookup_lt_is_Some_2 pop i Hi) as [x ->]. simpl. f_equal. exact IH.
Qed.

Lemma elem_of_omap_lookup {A} (pop : list A) (ix : list nat) y :
  y ∈ omap (fun i => pop !! i) ix -> y ∈ pop.
Proof.
  intros (i & _ & Hi)%list_elem_of_omap. by eapply list_elem_of_lookup_2.
Qed.

Lemma NoDup_omap_lookup {A} (pop : list A) (ix : list nat) :
  NoDup pop -> NoDup ix -> Forall (fun i => i < length pop) ix ->
  NoDup (omap (fun i => pop !! i) ix).
Proof.
  intros Hpop Hix. induction Hix as [|i ix Hi Hix IH]; intros Hlt; [constructor |].
  apply Forall_cons_iff in Hlt as [Hlt_i Hlt]. simpl.
  destruct (lookup_lt_is_Some_2 pop i Hlt_i) as [x Hx]. rewrite Hx.
  constructor; [| by apply IH].
  intros (j & Hj & Hjx)%list_elem_of_omap.
  apply Hi.
  by rewrite (NoDup_lookup pop i j _ Hpop Hx Hjx).
Qed.

(** [random.sample] draws [k] elements of the population, at distinct
    positions. *)
Lemma py_sample_ok {A} (pop : list A) k s :
  k <= length pop ->
  exists xs s', py_sample pop k s = Ok (xs, s') /\ length xs = k /\
    (forall y, y ∈ xs -> y ∈ pop) /\ (NoDup pop -> NoDup xs).
Proof.
  intros Hk. unfold py_sample.
  destruct (decide (length pop < k)) as [Hlt | _]; [lia |].
  pose proof (sample_indices_length (length pop) k s Hk) as Hlen.
  pose proof (sample_indices_NoDup (length pop) k s Hk) as Hnd.
  pose proof (sample_indices_lt (length pop) k s Hk) as Hb.
  destruct (sample_indices (length pop) k s) as [ix s']. simpl in *.
  exists (omap (fun i => pop !! i) ix), s'. repeat split.
  - by rewrite omap_lookup_length.
  - apply elem_of_omap_lookup.
  - intros Hpop. by apply NoDup_omap_lookup.
Qed.

Lemma py_sample_Ok_inv {A} (pop : list A) k s xs s' :
  py_sample pop k s = Ok (xs, s') ->
  k <= length pop /\ length xs = k /\ (forall y, y ∈ xs -> y ∈ pop) /\ (NoDup pop -> NoDup xs).
Proof.
  intros Hs. destruct (decide (k <= length pop)) as [Hk | Hk].
  - destruct (py_sample_ok pop k s Hk) as (xs' & s'' & Hs' & Hrest).
    rewrite Hs in Hs'. injection Hs' as -> ->. auto.
  - unfold py_sample in Hs. rewrite decide_True in Hs by lia. discriminate.
Qed.

(** A sample as large as the population draws every position, so it holds
    every element. *)
Lemma py_sample_full {A} (pop : list A) s xs s' :
  py_sample pop (length pop) s = Ok (xs, s') -> forall y, y ∈ pop -> y ∈ xs.
Proof.
  unfold py_sample. rewrite decide_False by lia.
  pose proof (sample_indices_length (length pop) (length pop) s (le_n _)) as Hlen.
  pose proof (sample_indices_NoDup (length pop) (length pop) s (le_n _)) as Hnd.
  pose proof (sample_indices_lt (length pop) (length pop) s (le_n _)) as Hlt.
  destruct (sample_indices (length pop) (length pop) s) as [ix s'']. simpl in *.
  intros [= <- _] y (i & Hi)%list_elem_of_lookup.
  assert (Hperm : ix ≡ₚ seq 0 (length pop)).
  { apply submseteq_length_Permutation; [| by rewrite length_seq, Hlen].
    apply NoDup_submseteq; [exact Hnd |]. intros j Hj%list_elem_of_In.
    apply list_elem_of_In, in_seq. rewrite Forall_forall in Hlt. specialize (Hlt j Hj). lia. }
  apply list_elem_of_omap. exists i. split; [| exact Hi].
  rewrite Hperm. apply list_elem_of_In, in_seq. apply lookup_lt_Some in Hi. lia.
Qed.

Lemma py_sample_too_large {A} (pop : list A) k s :
  length pop < k -> py_sample pop k s = Raise ValueError.
Proof. intros Hk. unfold py_sample. by rewrite decide_True. Qed.

End Random.

(** A deterministic generator for evaluation: a linear congruential state;
    [random.sample] takes a window of consecutive positions. *)
Definition lcg_next (s : N) : N := (s * 1103515245 + 12345) mod 2147483648.

Definition lcg_below (n : nat) (s : N) : nat := N.to_nat (s mod N.of_nat n).

Lemma lcg_below_lt n s : 0 < n -> lcg_below n s < n.
Proof.
  intros Hn. unfold lcg_below.
  assert (H : (s mod N.of_nat n < N.of_nat n)%N) by (apply N.mod_lt; lia).
  lia.
Qed.

#[export] Program Instance lcg_source : RandomSource := {
  rng_state := N;
  randbelow n s := (lcg_below n s, lcg_next s);
  sample_indices n k s := (seq (lcg_below (n - k + 1) s) k, lcg_next s)
}.
Next Obligation. intros n s Hn. simpl. by apply lcg_below_lt. Qed.
Next Obligation. intros n k s _. simpl. apply length_seq. Qed.
Next Obligation. intros n k s _. simpl. apply NoDup_ListNoDup, seq_NoDup. Qed.
Next Obligation.
  intros n k s Hk. simpl. apply Forall_forall. intros i Hi%in_seq.
  pose proof (lcg_below_lt (n - k + 1) s). lia.
Qed.

(** ** [max(xs, key=f)]

    CPython's [min_max] replaces the current maximum only by an element of
    strictly greater key: ties keep the first. *)
Section MaxKey.
Context {A : Type} (f : A -> nat).

Fixpoint max_key_go (best : A) (xs : list A) : A :=
  match xs with
  | [] => best
  | x :: xs' => if f best <? f x then max_key_go x xs' else max_key_go best xs'
  end.

Definition py_max_key (xs : list A) : res A :=
  match xs with
  | [] => Raise ValueError
  | x :: xs' => Ok (max_key_go x xs')
  end.

(** The reference: the first element whose key is the maximum of the keys. *)
Definition max_of_keys (xs : list A) : nat := fold_right Nat.max 0 (map f xs).

Definition first_max (xs : list A) : option A :=
  List.find (fun y => Nat.eqb (f y) (max_of_keys xs)) xs.

(** The position of the result: every element before it has a smaller key,
    every element after it a key at most as large. *)
Definition first_max_at (xs : list A) (m : A) : Prop :=
  exists pre post, xs = pre ++ m :: post /\
    Forall (fun y => f y < f m) pre /\ Forall (fun y => f y <= f m) post.

Lemma max_key_go_at b xs m : max_key_go b xs = m -> first_max_at (b :: xs) m.
Proof.
  revert b; induction xs as [|x xs IH]; intros b Hm; simpl in Hm.
  - subst. exists [], []. repeat constructor.
  - destruct (Nat.ltb_spec (f b) (f x)) as [Hlt | Hge].
    + destruct (IH x Hm) as (pre & post & Heq & Hpre & Hpost). clear Hm.
      exists (b :: pre), post. split; [by rewrite Heq |]. split; [| done].
      constructor; [| done].
      destruct pre as [|p pre]; injection Heq as Hx _; subst; [lia |].
      apply Forall_cons_iff in Hpre as [Hp _]. lia.
    + destruct (IH b Hm) as (pre & post & Heq & Hpre & Hpost). clear Hm.
      destruct pre as [|p pre]; injection Heq as Hb Hxs; subst.
      * exists [], (x :: post). split; [done |]. split; [constructor |].
        constructor; [lia | done].
      * apply Forall_cons_iff in Hpre as [Hp Hpre].
        exists (p :: x :: pre), post. split; [done |]. split; [| done].
        constructor; [done |]. constructor; [lia | done].
Qed.

Lemma first_max_at_max xs m :
  first_max_at xs m -> max_of_keys xs = f m.
Proof.
  intros (pre & post & -> & Hpre & Hpost). unfold max_of_keys.
  rewrite map_app, fold_right_app. simpl.
  assert (Hpost' : fold_right Nat.max 0 (map f post) <= f m).
  { induction Hpost; simpl; lia. }
  replace (Nat.max (f m) (fold_right Nat.max 0 (map f post))) with (f m) by lia.
  induction Hpre; simpl; lia.
Qed.

Lemma first_max_at_find xs m :
  first_max_at xs m -> first_max xs = Some m.
Proof.
  intros Hat. unfold first_max. rewrite (first_max_at_max xs m Hat).
  destruct Hat as (pre & post & -> & Hpre & _).
  induction Hpre as [|y pre Hy _ IH]; simpl.
  - by rewrite Nat.eqb_refl.
  - destruct (Nat.eqb_spec (f y) (f m)); [lia | exact IH].
Qed.

(** [max(xs, key=f)] computes the reference: the first element of maximal
    key, and [ValueError] exactly on an empty sequence.  This checks the
    translation of CPython's [max] against its documented meaning. *)
Lemma py_max_key_first_max xs :
  py_max_key xs = match first_max xs with
                  | Some m => Ok m
                  | None => Raise ValueError
                  end.
Proof.
  destruct xs as [|x xs]; [reflexivity |]. simpl py_max_key.
  by rewrite (first_max_at_find _ _ (max_key_go_at x xs _ eq_refl)).
Qed.

Lemma py_max_key_at xs m : py_max_key xs = Ok m -> first_max_at xs m.
Proof.
  destruct xs as [|x xs]; [discriminate |]. intros [= <-]. by apply max_key_go_at.
Qed.

End MaxKey.
