(* ===== verification/Keywords.v ===== *)
(** * The keyword extractor ([caption_utils.py] lines 59-72)

    [extract_keywords(text)] runs the spaCy pipeline [nlp] (loaded once at
    line 8) on [text.lower()], keeps the text of every token tagged [NOUN] or
    [PROPN] that is not a stop word, then the text of every noun chunk of at
    most three whitespace-separated words, and returns [list(set(...))].

    spaCy is opaque: a document is modelled by what the code reads of it
    (token text, coarse part of speech, stop-word flag; noun-chunk text),
    and the pipeline and [str.lower] are the fields of [NlpModel].  The
    theorems characterise the members of the result, its lack of
    duplicates, and its independence, up to permutation, from the set
    order. *)

From S2P Require Import Prelude PyStr PyRuntime.

(** spaCy's coarse part-of-speech tags ([token.pos_]). *)
Inductive POS : Type :=
  | ADJ | ADP | ADV | AUX | CCONJ | DET | INTJ | NOUN | NUM | PART
  | PRON | PROPN | PUNCT | SCONJ | SYM | VERB | X | SPACE.

#[export] Instance POS_eq_dec : EqDecision POS.
Proof. solve_decision. Defined.

Record Token : Type := {
  tok_text : pystr;
  tok_pos : POS;
  tok_is_stop : bool
}.

Record Span : Type := { span_text : pystr }.

Record Doc : Type := {
  doc_tokens : list Token;
  doc_noun_chunks : list Span
}.

(** The loaded pipeline [nlp] (line 8) and Python's [str.lower]. *)
Class NlpModel := {
  py_lower : pystr -> pystr;
  nlp : pystr -> Doc
}.

Section Extract.
Context `{NlpModel} `{SetOrder}.

(** [token.pos_ in ["NOUN", "PROPN"] and not token.is_stop] (line 64) *)
Definition keep_token (t : Token) : bool :=
  bool_decide (tok_pos t ∈ [NOUN; PROPN]) && negb (tok_is_stop t).

(** [len(chunk.text.split()) <= 3] (line 69) *)
Definition keep_chunk (c : Span) : bool := Nat.leb (word_count (span_text c)) 3.

(** Lines 63-65: the token loop. *)
Definition token_keywords (d : Doc) : list pystr :=
  map tok_text (List.filter keep_token (doc_tokens d)).

(** Lines 68-70: the noun-chunk loop, appended after the tokens. *)
Definition chunk_keywords (d : Doc) : list pystr :=
  map span_text (List.filter keep_chunk (doc_noun_chunks d)).

Definition extract_keywords (text : pystr) : list pystr :=
  let doc := nlp (py_lower text) in
  set_list (token_keywords doc ++ chunk_keywords doc).

(** The membership of [extract_keywords text], in terms of the document. *)
Definition is_keyword_of (d : Doc) (x : pystr) : Prop :=
  (exists t, t ∈ doc_tokens d /\ tok_pos t ∈ [NOUN; PROPN] /\
             tok_is_stop t = false /\ tok_text t = x) \/
  (exists c, c ∈ doc_noun_chunks d /\ word_count (span_text c) <= 3 /\
             span_text c = x).

Lemma token_keywords_elem d x :
  x ∈ token_keywords d <->
  exists t, t ∈ doc_tokens d /\ tok_pos t ∈ [NOUN; PROPN] /\
            tok_is_stop t = false /\ tok_text t = x.
Proof.
  unfold token_keywords, keep_token. rewrite list_elem_of_fmap. split.
  - intros (t & -> & Ht). apply list_elem_of_In, filter_In in Ht as [Ht Hk].
    apply andb_true_iff in Hk as [Hp%bool_decide_eq_true Hs%negb_true_iff].
    exists t. rewrite list_elem_of_In. eauto 10.
  - intros (t & Ht & Hp & Hs & <-). exists t. split; [done |].
    apply list_elem_of_In, filter_In. split; [by apply list_elem_of_In |].
    rewrite Hs, andb_true_r. by apply bool_decide_eq_true.
Qed.

Lemma chunk_keywords_elem d x :
  x ∈ chunk_keywords d <->
  exists c, c ∈ doc_noun_chunks d /\ word_count (span_text c) <= 3 /\ span_text c = x.
Proof.
  unfold chunk_keywords, keep_chunk. rewrite list_elem_of_fmap. split.
  - intros (c & -> & Hc). apply list_elem_of_In, filter_In in Hc as [Hc Hk%Nat.leb_le].
    exists c. rewrite list_elem_of_In. eauto 10.
  - intros (c & Hc & Hk & <-). exists c. split; [done |].
    apply list_elem_of_In, filter_In. split; [by apply list_elem_of_In | by apply Nat.leb_le].
Qed.

Lemma extract_keywords_elem text x :
  x ∈ extract_keywords text <-> is_keyword_of (nlp (py_lower text)) x.
Proof.
  unfold extract_keywords, is_keyword_of.
  by rewrite set_list_elem, elem_of_app, token_keywords_elem, chunk_keywords_elem.
Qed.

(** C12: a string is a keyword exactly when it is the text of a non-stop
    noun or proper-noun token, or of a noun chunk of at most three words,
    of the document of the lower-cased input. *)
Theorem extract_keywords_spec text x :
  x ∈ extract_keywords text <-> is_keyword_of (nlp (py_lower text)) x.
Proof. apply extract_keywords_elem. Qed.

Lemma extract_keywords_NoDup text : NoDup (extract_keywords text).
Proof. apply set_list_NoDup. Qed.

End Extract.

Section AcrossOrders.
Context `{NlpModel}.

(** C27: calling [extract_keywords] twice on the same string, in the same
    process or in two processes with different set orders, gives the same
    keywords, each once: both lists are free of duplicates and are
    permutations of each other. *)
Theorem extract_keywords_permutation (O1 O2 : SetOrder) text :
  NoDup (@extract_keywords _ O1 text) /\ NoDup (@extract_keywords _ O2 text) /\
  @extract_keywords _ O1 text ≡ₚ @extract_keywords _ O2 text.
Proof.
  split; [apply set_list_NoDup |]. split; [apply set_list_NoDup |].
  apply NoDup_Permutation; [apply set_list_NoDup.. |].
  intros x. by rewrite (@extract_keywords_elem _ O1), (@extract_keywords_elem _ O2).
Qed.

End AcrossOrders.

(** ** A tagger for evaluation

    Not spaCy: a lexicon tagger used to run the definitions on concrete
    inputs; no theorem about the program depends on its analysis. *)
Module KeywordFixtures.

Definition ascii_lower (s : pystr) : pystr :=
  map (fun c => if ((65 <=? c) && (c <=? 90))%N then (c + 32)%N else c) s.

Definition lexicon (w : pystr) : POS * bool :=
  if bool_decide (w ∈ [u "the"; u "a"; u "at"]) then (DET, true)
  else if bool_decide (w = u "over") then (ADP, true)
  else if bool_decide (w ∈ [u "fox"; u "dog"; u "sunset"; u "beach"; u "cat"; u "trending"])
  then (NOUN, false)
  else if bool_decide (w = u "jumps") then (VERB, false)
  else (ADJ, false).

Definition tag (w : pystr) : Token :=
  {| tok_text := w; tok_pos := (lexicon w).1; tok_is_stop := (lexicon w).2 |}.

(** Noun chunks: a run of determiners and adjectives closed by a noun. *)
Fixpoint chunks_go (ws : list pystr) (cur : list pystr) : list Span :=
  match ws with
  | [] => []
  | w :: ws' =>
      match (lexicon w).1 with
      | NOUN => {| span_text := py_join (u " ") (cur ++ [w]) |} :: chunks_go ws' []
      | DET | ADJ => chunks_go ws' (cur ++ [w])
      | _ => chunks_go ws' []
      end
  end.

Definition lexicon_doc (s : pystr) : Doc :=
  {| doc_tokens := map tag (py_split s); doc_noun_chunks := chunks_go (py_split s) [] |}.

#[export] Instance lexicon_nlp : NlpModel := {| py_lower := ascii_lower; nlp := lexicon_doc |}.

End KeywordFixtures.
