(* ===== verification/Caption.v ===== *)
(** * The caption generators ([caption_utils.py] lines 13-57)

    - [CAPTION_TEMPLATES] (lines 14-25): ten strings with one ["{}"] each.
    - [caption_from_text] (lines 28-38): BART summary (with sampling, so it
      advances the torch generator), keywords of the summary, the first
      keyword or ["moment"], [random.choice] of a template (advancing the
      [random] generator) and [str.format].
    - [caption_from_image] (lines 41-57): PIL decode and RGB conversion,
      BLIP processor, [generate] with three return sequences, decode, and
      [max(captions, key=lambda x: len(x.split()))].

    The models are the interfaces [Summarizer] and [Captioner]; their laws
    are the output shapes the Hugging Face APIs promise. *)

From Stdlib Require QArith_base.
From S2P Require Import Prelude PyStr PyRuntime Keywords.

Local Open Scope N_scope.

(** ** The templates *)

(** ["{}"] *)
Definition field : pystr := [lbrace; rbrace].

(** The non-ASCII code points of the templates: U+2728 (sparkles),
    U+1F31F (glowing star), U+1F496 (sparkling heart), U+1F343 (leaf),
    U+270C U+FE0F (victory hand, emoji presentation), U+1F525 (fire). *)
Definition CAPTION_TEMPLATES : list pystr := [
  u "Living for moments like this {} " ++ [10024];
  u "Can we talk about how amazing this {} is?";
  u "{} but make it aesthetic " ++ [127775];
  u "This {} has my whole heart " ++ [128150];
  u "Found my happy place with this {}";
  u "{} and chill " ++ [127811];
  u "This {} deserves all the hype!";
  u "Sending you good vibes with this {} " ++ [9996; 65039];
  u "Who else loves {} as much as I do?";
  u "This {} hits different " ++ [128293]
].

(** Each template split around its field: the text before and after. *)
Definition template_parts : list (pystr * pystr) := [
  (u "Living for moments like this ", u " " ++ [10024]);
  (u "Can we talk about how amazing this ", u " is?");
  ([], u " but make it aesthetic " ++ [127775]);
  (u "This ", u " has my whole heart " ++ [128150]);
  (u "Found my happy place with this ", []);
  ([], u " and chill " ++ [127811]);
  (u "This ", u " deserves all the hype!");
  (u "Sending you good vibes with this ", u " " ++ [9996; 65039]);
  (u "Who else loves ", u " as much as I do?");
  (u "This ", u " hits different " ++ [128293])
].

Definition shape_of (pt : pystr * pystr) : pystr := pt.1 ++ field ++ pt.2.

(** The caption a template shape gives for a keyword. *)
Definition fill (pt : pystr * pystr) (k : pystr) : pystr := pt.1 ++ k ++ pt.2.

Lemma template_parts_shape : CAPTION_TEMPLATES = map shape_of template_parts.
Proof. vm_compute. reflexivity. Qed.

Lemma template_parts_brace_free :
  Forall (fun pt => brace_free pt.1 = true /\ brace_free pt.2 = true) template_parts.
Proof. repeat constructor. Qed.

Lemma template_part_brace_free pt :
  pt ∈ template_parts -> brace_free pt.1 = true /\ brace_free pt.2 = true.
Proof.
  intros Hpt. pose proof template_parts_brace_free as Hbf.
  rewrite Forall_forall in Hbf. apply list_elem_of_In in Hpt. exact (Hbf pt Hpt).
Qed.

(** [template.format(k, ...)] for any template of the list: the first
    argument fills the field, the others are ignored. *)
Lemma format_template_args pt k rest :
  pt ∈ template_parts -> py_format (shape_of pt) (k :: rest) = Ok (fill pt k).
Proof.
  intros [H1 H2]%template_part_brace_free. by apply py_format_one_field.
Qed.

Lemma format_template pt k :
  pt ∈ template_parts -> py_format (shape_of pt) [k] = Ok (fill pt k).
Proof. apply format_template_args. Qed.

(** [template.format()]: the field has no argument to take. *)
Lemma format_template_no_arg pt :
  pt ∈ template_parts -> py_format (shape_of pt) [] = Raise IndexError.
Proof.
  intros [H1 _]%template_part_brace_free. unfold py_format, shape_of.
  rewrite format_go_brace_free_app by exact H1. reflexivity.
Qed.

Lemma template_elem t : t ∈ CAPTION_TEMPLATES -> exists pt, pt ∈ template_parts /\ t = shape_of pt.
Proof.
  rewrite template_parts_shape. intros (pt & -> & Hpt)%list_elem_of_fmap. eauto.
Qed.

(** C21: each of the ten templates is a well-formed format string with
    exactly one automatically numbered field: formatting it without an
    argument is an [IndexError], and with arguments it is the template's
    text around its field, the field replaced by the first argument. *)
Theorem templates_well_formed t :
  t ∈ CAPTION_TEMPLATES ->
  py_format t [] = Raise IndexError /\
  exists pt, pt ∈ template_parts /\ t = shape_of pt /\
    forall k rest, py_format t (k :: rest) = Ok (fill pt k).
Proof.
  intros (pt & Hpt & ->)%template_elem.
  split; [by apply format_template_no_arg |].
  exists pt. split; [done |]. split; [done |]. intros k rest. by apply format_template_args.
Qed.

(** ** Which template a caption comes from *)

Definition is_ascii_upper (c : N) : bool := (65 <=? c) && (c <=? 90).

(** A keyword of lower-cased text has no ASCII upper-case letter. *)
Definition no_upper (k : pystr) : bool := forallb (fun c => negb (is_ascii_upper c)) k.

Definition head_differs (x y : pystr) : bool :=
  match x, y with
  | a :: _, b :: _ => negb (a =? b)
  | _, _ => false
  end.

(** Two shapes whose captions can never coincide: their prefixes differ in
    the first code point, or their suffixes in the last. *)
Definition ends_differ (p q : pystr * pystr) : bool :=
  head_differs p.1 q.1 || head_differs (rev p.2) (rev q.2).

(** A shape that starts with the keyword against a shape whose prefix
    starts with an upper-case letter and ends with the keyword. *)
Definition upper_split (p q : pystr * pystr) : bool :=
  match p.1, q.1, q.2 with
  | [], b :: _, [] => is_ascii_upper b && head_differs p.2 q.1
  | _, _, _ => false
  end.

Definition separated (p q : pystr * pystr) : bool :=
  ends_differ p q || upper_split p q || upper_split q p.

Lemma head_differs_app x y k1 k2 :
  head_differs x y = true -> x ++ k1 <> y ++ k2.
Proof.
  destruct x as [|a x], y as [|b y]; simpl; try discriminate.
  intros Hab [= Heq _]. subst. by rewrite N.eqb_refl in Hab.
Qed.

Lemma ends_differ_fill p q k1 k2 :
  ends_differ p q = true -> fill p k1 <> fill q k2.
Proof.
  unfold ends_differ, fill. intros [Hh | Ht]%orb_true_iff Heq.
  - exact (head_differs_app _ _ _ _ Hh Heq).
  - apply (f_equal (@rev N)) in Heq. rewrite !rev_app_distr, <- !app_assoc in Heq.
    exact (head_differs_app _ _ _ _ Ht Heq).
Qed.

Lemma upper_split_fill p q k1 k2 :
  upper_split p q = true -> no_upper k1 = true -> fill p k1 <> fill q k2.
Proof.
  unfold upper_split, fill. destruct p as [p1 p2], q as [q1 q2]. simpl.
  destruct p1 as [|a p1], q1 as [|b q1], q2 as [|c q2]; try discriminate.
  intros [Hb Hd]%andb_true_iff Hk Heq. rewrite app_nil_r in Heq. simpl in Heq.
  destruct k1 as [|d k1]; simpl in Heq.
  - exact (head_differs_app _ _ [] _ Hd (eq_trans (app_nil_r _) Heq)).
  - injection Heq as -> _. simpl in Hk. by rewrite Hb in Hk.
Qed.

Lemma separated_fill p q k1 k2 :
  separated p q = true -> no_upper k1 = true -> no_upper k2 = true ->
  fill p k1 <> fill q k2.
Proof.
  unfold separated. intros [[H | H]%orb_true_iff | H]%orb_true_iff H1 H2.
  - by apply ends_differ_fill.
  - by apply upper_split_fill.
  - intros Heq. symmetry in Heq. revert Heq. by apply upper_split_fill.
Qed.

Definition all_separated : bool :=
  forallb (fun i => forallb (fun j =>
    Nat.eqb i j ||
    match template_parts !! i, template_parts !! j with
    | Some p, Some q => separated p q
    | _, _ => false
    end) (seq 0 10)) (seq 0 10).

Lemma all_separated_true : all_separated = true.
Proof. vm_compute. reflexivity. Qed.

Lemma template_parts_separated i j p q :
  i <> j -> template_parts !! i = Some p -> template_parts !! j = Some q ->
  separated p q = true.
Proof.
  intros Hij Hp Hq.
  assert (Hi : (i < 10)%nat) by (apply lookup_lt_Some in Hp; exact Hp).
  assert (Hj : (j < 10)%nat) by (apply lookup_lt_Some in Hq; exact Hq).
  pose proof all_separated_true as Hall. unfold all_separated in Hall.
  rewrite forallb_forall in Hall. specialize (Hall i (proj2 (in_seq _ _ _) (conj (Nat.le_0_l _) Hi))).
  rewrite forallb_forall in Hall. specialize (Hall j (proj2 (in_seq _ _ _) (conj (Nat.le_0_l _) Hj))).
  rewrite Hp, Hq in Hall. apply orb_true_iff in Hall as [Heq | Hs]; [| exact Hs].
  apply Nat.eqb_eq in Heq. contradiction.
Qed.

(** C8: a caption determines its template and its keyword, when keywords
    have no upper-case letter (they come from lower-cased text). *)
Theorem fill_injective i j p q k1 k2 :
  template_parts !! i = Some p -> template_parts !! j = Some q ->
  no_upper k1 = true -> no_upper k2 = true ->
  fill p k1 = fill q k2 -> i = j /\ k1 = k2.
Proof.
  intros Hp Hq H1 H2 Heq.
  destruct (decide (i = j)) as [<- | Hij].
  - rewrite Hp in Hq. injection Hq as <-. split; [done |].
    unfold fill in Heq. apply app_inv_head in Heq. by apply app_inv_tail in Heq.
  - exfalso. exact (separated_fill p q k1 k2 (template_parts_separated i j p q Hij Hp Hq) H1 H2 Heq).
Qed.

(** ** [caption_from_text] *)

(** The keyword arguments of the [bart_pipeline] call (line 30). *)
Record SummarizeParams : Type := {
  sum_max_length : nat;
  sum_min_length : nat;
  sum_do_sample : bool
}.

Definition bart_params : SummarizeParams :=
  {| sum_max_length := 50; sum_min_length := 20; sum_do_sample := true |}.

(** One element of the pipeline's output list, a dict with
    ['summary_text']. *)
Record SummaryOut : Type := { summary_text : pystr }.

(** The summarisation pipeline: with sampling it draws from the torch
    generator, threaded as [torch_state]; it may fail. *)
Class Summarizer := {
  torch_state : Type;
  summarize : pystr -> SummarizeParams -> torch_state -> res (list SummaryOut * torch_state)
}.

Section FromText.
Context `{NlpModel} `{SetOrder} `{RandomSource} `{Summarizer}.

(** [keywords[0] if keywords else "moment"] (line 34) *)
Definition main_keyword (keywords : list pystr) : pystr :=
  match keywords with
  | k :: _ => k
  | [] => u "moment"
  end.

(** [[0]['summary_text']] (line 30): an [IndexError] on an empty output. *)
Definition first_summary (outs : list SummaryOut) : res pystr :=
  match outs with
  | o :: _ => Ok (summary_text o)
  | [] => Raise IndexError
  end.

Definition caption_from_text (prompt : pystr) (ts : torch_state) (rs : rng_state)
    : res (pystr * torch_state * rng_state) :=
  r <- summarize prompt bart_params ts ;;
  summary <- first_summary r.1 ;;
  let keywords := extract_keywords summary in
  let kw := main_keyword keywords in
  c <- py_choice CAPTION_TEMPLATES rs ;;
  caption <- py_format c.1 [kw] ;;
  Ok (caption, r.2, c.2).

Lemma caption_from_text_summary_ok prompt ts rs o outs ts' :
  summarize prompt bart_params ts = Ok (o :: outs, ts') ->
  exists pt rs', pt ∈ template_parts /\
    caption_from_text prompt ts rs =
      Ok (fill pt (main_keyword (extract_keywords (summary_text o))), ts', rs').
Proof.
  intros Hs. unfold caption_from_text. rewrite Hs. cbn [res_bind first_summary fst snd].
  destruct (py_choice_ok CAPTION_TEMPLATES rs) as (t & rs' & Hc & (pt & Hpt & ->)%template_elem);
    [discriminate |].
  rewrite Hc. cbn [res_bind fst snd].
  exists pt, rs'. split; [done |]. by rewrite format_template.
Qed.

(** The successful runs: a template filled with the keyword of the first
    summary. *)
Lemma caption_from_text_Ok_inv prompt ts rs cap ts' rs' :
  caption_from_text prompt ts rs = Ok (cap, ts', rs') ->
  exists pt o outs, pt ∈ template_parts /\ summarize prompt bart_params ts = Ok (o :: outs, ts') /\
    cap = fill pt (main_keyword (extract_keywords (summary_text o))).
Proof.
  destruct (summarize prompt bart_params ts) as [[[|o outs] ts''] | e] eqn:Hs.
  - unfold caption_from_text. by rewrite Hs.
  - destruct (caption_from_text_summary_ok prompt ts rs o outs ts'' Hs) as (pt & rs'' & Hpt & ->).
    intros [= <- <- _]. exists pt, o, outs. done.
  - unfold caption_from_text. by rewrite Hs.
Qed.


(** An empty summary list is an [IndexError] and a failing summariser
    propagates its error; no template is drawn in either case. *)
Theorem caption_from_text_errors prompt ts rs :
  (forall ts', summarize prompt bart_params ts = Ok ([], ts') ->
     caption_from_text prompt ts rs = Raise IndexError) /\
  (forall e, summarize prompt bart_params ts = Raise e ->
     caption_from_text prompt ts rs = Raise e).
Proof.
  split; intros ? Hs; unfold caption_from_text; by rewrite Hs.
Qed.

(** C22: [caption_from_text] raises exactly when the summariser does, or
    when it returns no summary ([IndexError] of [[0]]): the template
    choice and the formatting never fail. *)
Theorem caption_from_text_raise prompt ts rs e :
  caption_from_text prompt ts rs = Raise e <->
  summarize prompt bart_params ts = Raise e \/
  (exists ts', summarize prompt bart_params ts = Ok ([], ts') /\ e = IndexError).
Proof.
  split.
  - destruct (summarize prompt bart_params ts) as [[[|o outs] ts'] | e'] eqn:Hs.
    + unfold caption_from_text. rewrite Hs. intros [= <-]. right. eauto.
    + destruct (caption_from_text_summary_ok prompt ts rs o outs ts' Hs) as (pt & rs' & _ & ->).
      discriminate.
    + unfold caption_from_text. rewrite Hs. intros [= <-]. by left.
  - destruct (caption_from_text_errors prompt ts rs) as [Hempty Hfail].
    intros [He | (ts' & He & ->)]; [exact (Hfail e He) | exact (Hempty ts' He)].
Qed.

(** Every template has at least twelve code points around its field. *)
Lemma template_text_length pt :
  pt ∈ template_parts -> (12 <= length pt.1 + length pt.2)%nat.
Proof.
  intros Hpt%list_elem_of_In.
  assert (Hall : forallb (fun pt => Nat.leb 12 (length pt.1 + length pt.2)) template_parts = true)
    by (vm_compute; reflexivity).
  apply Nat.leb_le. exact (proj1 (forallb_forall _ _) Hall pt Hpt).
Qed.

(** C28: a caption made from text is never empty: it is at least twelve
    code points (the shortest template text) longer than the keyword of
    the summary it was made from. *)
Theorem caption_from_text_length prompt ts rs cap ts' rs' :
  caption_from_text prompt ts rs = Ok (cap, ts', rs') ->
  cap <> [] /\ exists o outs, summarize prompt bart_params ts = Ok (o :: outs, ts') /\
    (12 + length (main_keyword (extract_keywords (summary_text o))) <= length cap)%nat.
Proof.
  intros (pt & o & outs & Hpt & Hs & ->)%caption_from_text_Ok_inv.
  pose proof (template_text_length pt Hpt) as Hl.
  unfold fill. rewrite !length_app. split; [| exists o, outs; split; [exact Hs | lia]].
  intros Hnil. apply (f_equal (@length N)) in Hnil. rewrite !length_app in Hnil. simpl in Hnil. lia.
Qed.

(** With a given template draw, the caption is that template filled with
    the keyword of the first summary. *)
Lemma caption_from_text_with_choice prompt ts rs o outs ts' pt rs' :
  summarize prompt bart_params ts = Ok (o :: outs, ts') ->
  pt ∈ template_parts -> py_choice CAPTION_TEMPLATES rs = Ok (shape_of pt, rs') ->
  caption_from_text prompt ts rs =
    Ok (fill pt (main_keyword (extract_keywords (summary_text o))), ts', rs').
Proof.
  intros Hs Hpt Hc. unfold caption_from_text. rewrite Hs. cbn [res_bind first_summary fst snd].
  rewrite Hc. cbn [res_bind fst snd]. by rewrite format_template.
Qed.

End FromText.

(** ** Dependence on the set order *)

Lemma fill_keyword_inj pt k1 k2 : fill pt k1 = fill pt k2 -> k1 = k2.
Proof. unfold fill. intros H%app_inv_head. by apply app_inv_tail in H. Qed.

(** The first element of a duplicate-free list of two or more differs from
    the first element of its reverse. *)
Lemma main_keyword_reverse (l : list pystr) :
  NoDup l -> (2 <= length l)%nat -> main_keyword l <> main_keyword (reverse l).
Proof.
  destruct l as [|x [|y l]]; simpl; intros Hnd Hlen; [lia | lia |].
  rewrite reverse_cons. destruct (reverse (y :: l)) as [|z r] eqn:E.
  - apply (f_equal length) in E. rewrite length_reverse in E. discriminate.
  - cbn [app main_keyword]. intros ->. apply list.NoDup_cons in Hnd as [Hx _].
    apply Hx. rewrite <- elem_of_reverse, E. apply list_elem_of_here.
Qed.

Section SetOrderDependence.
Context `{NlpModel} `{RandomSource} `{Summarizer}.

(** C26: [keywords[0]] depends on the iteration order of [set]: whatever
    the tagger, the summariser and the [random] state, when the summary has
    at least two distinct keyword candidates, the two orders
    [remove_dups_order] and [rev_order] of [list(set(...))] make
    [caption_from_text] fill the same template with different keywords,
    so the captions differ. *)
Theorem caption_depends_on_set_order prompt ts rs o outs ts' :
  summarize prompt bart_params ts = Ok (o :: outs, ts') ->
  (2 <= length (remove_dups (token_keywords (nlp (py_lower (summary_text o))) ++
                             chunk_keywords (nlp (py_lower (summary_text o))))))%nat ->
  exists c1 c2 rs',
    @caption_from_text _ remove_dups_order _ _ prompt ts rs = Ok (c1, ts', rs') /\
    @caption_from_text _ rev_order _ _ prompt ts rs = Ok (c2, ts', rs') /\ c1 <> c2.
Proof.
  intros Hs Hlen.
  destruct (py_choice_ok CAPTION_TEMPLATES rs) as (t & rs' & Hc & (pt & Hpt & ->)%template_elem);
    [discriminate |].
  eexists _, _, rs'.
  split; [exact (@caption_from_text_with_choice _ remove_dups_order _ _ _ _ _ _ _ _ _ _ Hs Hpt Hc) |].
  split; [exact (@caption_from_text_with_choice _ rev_order _ _ _ _ _ _ _ _ _ _ Hs Hpt Hc) |].
  intros Heq%fill_keyword_inj. revert Heq. apply main_keyword_reverse; [apply NoDup_remove_dups | exact Hlen].
Qed.

End SetOrderDependence.

(** ** [caption_from_image] *)

(** The keyword arguments of [blip_model.generate] (lines 46-54).  The
    temperature and nucleus parameters are rationals. *)
Record GenerateParams : Type := {
  gen_num_return_sequences : nat;
  gen_max_length : nat;
  gen_num_beams : nat;
  gen_temperature : QArith_base.Q;
  gen_top_k : nat;
  gen_top_p : QArith_base.Q
}.

Definition blip_params : GenerateParams := {|
  gen_num_return_sequences := 3;
  gen_max_length := 30;
  gen_num_beams := 5;
  gen_temperature := QArith_base.Qmake 7 10;
  gen_top_k := 50;
  gen_top_p := QArith_base.Qmake 9 10
|}.

(** PIL and the BLIP processor and model.  [image_open] is
    [Image.open], which raises on an undecodable file; [generate] returns
    [num_return_sequences] sequences when it is at most [num_beams], and
    raises a [ValueError] otherwise, as Hugging Face's beam search does. *)
Class Captioner := {
  image_file : Type;
  image : Type;
  image_open : image_file -> res image;
  convert_rgb : image -> image;
  pixel_values : Type;
  blip_processor : image -> pixel_values;
  token_seq : Type;
  blip_generate : pixel_values -> GenerateParams -> res (list token_seq);
  blip_decode : token_seq -> pystr;
  blip_generate_ok px p :
    (gen_num_return_sequences p <= gen_num_beams p)%nat ->
    exists outs, blip_generate px p = Ok outs /\
                 length outs = gen_num_return_sequences p;
  blip_generate_too_many px p :
    (gen_num_beams p < gen_num_return_sequences p)%nat -> blip_generate px p = Raise ValueError
}.

Section FromImage.
Context `{Captioner}.

(** The decoded candidates of an image (lines 42-56). *)
Definition image_candidates (f : image_file) : res (list pystr) :=
  img <- image_open f ;;
  let img := convert_rgb img in
  let inputs := blip_processor img in
  outputs <- blip_generate inputs blip_params ;;
  Ok (map blip_decode outputs).

Definition caption_from_image (f : image_file) : res pystr :=
  captions <- image_candidates f ;;
  py_max_key word_count captions.

Lemma caption_from_image_cands f img :
  image_open f = Ok img ->
  exists cands c, image_candidates f = Ok cands /\ length cands = 3%nat /\
    caption_from_image f = Ok c /\ first_max_at word_count cands c.
Proof.
  intros Hi. unfold caption_from_image, image_candidates. rewrite Hi. cbn [res_bind].
  destruct (blip_generate_ok (blip_processor (convert_rgb img)) blip_params)
    as (outs & Hg & Hlen); [simpl; lia |].
  rewrite Hg. cbn [res_bind].
  destruct outs as [|o outs]; [discriminate |].
  eexists _, _. split; [reflexivity |]. split; [by rewrite length_map |].
  split; [reflexivity |]. by apply (py_max_key_at word_count), eq_refl.
Qed.

(** C9: for a decodable image the caption is produced (the [max] never
    sees an empty list, BLIP returns three candidates) and it is the first
    candidate of maximal word count: every earlier candidate has fewer
    words, every later one at most as many. *)
Theorem caption_from_image_ok f img :
  image_open f = Ok img ->
  exists cands c, image_candidates f = Ok cands /\ length cands = 3%nat /\
    caption_from_image f = Ok c /\ first_max_at word_count cands c.
Proof. apply caption_from_image_cands. Qed.

(** C10: an image PIL cannot decode is an error of the call, not an empty
    caption. *)
Theorem caption_from_image_decode_error f e :
  image_open f = Raise e -> caption_from_image f = Raise e.
Proof. intros Hi. unfold caption_from_image, image_candidates. by rewrite Hi. Qed.

End FromImage.

(** ** Models for evaluation

    A summariser that returns its prompt, and a captioner whose "image" is
    the list of captions BLIP would produce for it ([None] is a file PIL
    cannot decode). *)
Module CaptionFixtures.
Import KeywordFixtures.

#[export] Instance echo_summarizer : Summarizer := {|
  torch_state := N;
  summarize prompt _ ts := Ok ([{| summary_text := prompt |}], ts)
|}.

#[export] Program Instance list_captioner : Captioner := {|
  image_file := option (list pystr);
  image := list pystr;
  image_open f := match f with Some l => Ok l | None => Raise UnidentifiedImageError end;
  convert_rgb img := img;
  pixel_values := list pystr;
  blip_processor img := img;
  token_seq := pystr;
  blip_generate px p :=
    if decide (gen_num_beams p < gen_num_return_sequences p)%nat then Raise ValueError
    else Ok (take (gen_num_return_sequences p) (px ++ replicate (gen_num_return_sequences p) []));
  blip_decode t := t
|}.
Next Obligation.
  intros px p Hp. simpl. rewrite decide_False by lia. eexists. split; [reflexivity |].
  rewrite length_take, length_app, length_replicate. lia.
Qed.
Next Obligation. intros px p Hp. simpl. by rewrite decide_True. Qed.

(** Three candidates of two, five and three words. *)
Definition beach_image : @image_file list_captioner :=
  Some [u "a dog"; u "a dog on the beach"; u "a dog runs"].

(** The witness of [caption_from_image_ok]: the five-word candidate is the
    caption. *)
Lemma caption_from_image_ok_witness :
  image_open beach_image = Ok [u "a dog"; u "a dog on the beach"; u "a dog runs"] /\
  caption_from_image beach_image = Ok (u "a dog on the beach") /\
  exists cands c, image_candidates beach_image = Ok cands /\ length cands = 3%nat /\
    caption_from_image beach_image = Ok c /\ first_max_at word_count cands c.
Proof.
  split; [reflexivity |]. split; [vm_compute; reflexivity |].
  apply (caption_from_image_ok beach_image [u "a dog"; u "a dog on the beach"; u "a dog runs"]).
  reflexivity.
Defined.

(** The witness of [caption_from_image_decode_error]. *)
Lemma caption_from_image_decode_error_witness :
  @image_open list_captioner None = Raise UnidentifiedImageError /\
  @caption_from_image list_captioner None = Raise UnidentifiedImageError.
Proof.
  split; [reflexivity |]. apply caption_from_image_decode_error. reflexivity.
Defined.


(** The witness of [caption_from_text_errors]. *)
Lemma caption_from_text_errors_witness :
  @caption_from_text lexicon_nlp remove_dups_order lcg_source
    {| torch_state := unit; summarize _ _ ts := Ok ([], ts) |} (u "x") tt 0%N
  = Raise IndexError.
Proof.
  exact (proj1 (@caption_from_text_errors lexicon_nlp remove_dups_order lcg_source
           {| torch_state := unit; summarize _ _ ts := Ok ([], ts) |} (u "x") tt 0%N) tt eq_refl).
Defined.

(** The witness of [fill_injective]: the caption of template 4 for
    ["beach"] gives back template 4 and ["beach"]. *)
Lemma fill_injective_witness :
  3%nat = 3%nat /\ u "beach" = u "beach".
Proof.
  exact (fill_injective 3 3 (u "This ", u " has my whole heart " ++ [128150])
           (u "This ", u " has my whole heart " ++ [128150]) (u "beach") (u "beach")
           eq_refl eq_refl eq_refl eq_refl eq_refl).
Defined.

(** The witness of [templates_well_formed]: the fourth template. *)
Lemma templates_well_formed_witness :
  u "This {} has my whole heart " ++ [128150] ∈ CAPTION_TEMPLATES /\
  (py_format (u "This {} has my whole heart " ++ [128150]) [] = Raise IndexError /\
   exists pt, pt ∈ template_parts /\ u "This {} has my whole heart " ++ [128150] = shape_of pt /\
     forall k rest, py_format (u "This {} has my whole heart " ++ [128150]) (k :: rest) =
                    Ok (fill pt k)).
Proof.
  assert (H : u "This {} has my whole heart " ++ [128150] ∈ CAPTION_TEMPLATES)
    by (apply (bool_decide_unpack _); vm_compute; exact I).
  split; [exact H | exact (templates_well_formed _ H)].
Defined.

(** A summariser that fails. *)
Definition failing_summarizer : Summarizer :=
  {| torch_state := unit; summarize _ _ _ := Raise ModelError |}.

(** The witness of [caption_from_text_raise]. *)
Lemma caption_from_text_raise_witness :
  @caption_from_text lexicon_nlp remove_dups_order lcg_source failing_summarizer (u "x") tt 0
    = Raise ModelError /\
  (@summarize failing_summarizer (u "x") bart_params tt = Raise ModelError \/
   exists ts', @summarize failing_summarizer (u "x") bart_params tt = Ok ([], ts') /\
               ModelError = IndexError).
Proof.
  assert (H : @caption_from_text lexicon_nlp remove_dups_order lcg_source failing_summarizer
                (u "x") tt 0 = Raise ModelError) by reflexivity.
  split; [exact H | exact (proj1 (caption_from_text_raise _ _ _ _) H)].
Defined.

(** The witness of [caption_depends_on_set_order]: the prompt "Sunset at
    the beach" with the echoing summariser and the lexicon tagger. *)
Lemma caption_depends_on_set_order_witness :
  @summarize echo_summarizer (u "Sunset at the beach") bart_params 0 =
    Ok ([{| summary_text := u "Sunset at the beach" |}], 0) /\
  (2 <= length (remove_dups (token_keywords (nlp (py_lower (u "Sunset at the beach"))) ++
                             chunk_keywords (nlp (py_lower (u "Sunset at the beach"))))))%nat /\
  exists c1 c2 rs',
    @caption_from_text _ remove_dups_order lcg_source _ (u "Sunset at the beach") 0 7 =
      Ok (c1, 0, rs') /\
    @caption_from_text _ rev_order lcg_source _ (u "Sunset at the beach") 0 7 = Ok (c2, 0, rs') /\
    c1 <> c2.
Proof.
  assert (Hlen : (2 <= length (remove_dups (token_keywords (nlp (py_lower (u "Sunset at the beach"))) ++
                  chunk_keywords (nlp (py_lower (u "Sunset at the beach"))))))%nat)
    by (vm_compute; lia).
  split; [reflexivity |]. split; [exact Hlen |].
  exact (@caption_depends_on_set_order lexicon_nlp lcg_source echo_summarizer
           (u "Sunset at the beach") 0 7 _ [] 0 eq_refl Hlen).
Defined.

(** The witness of [caption_from_text_length]. *)
Lemma caption_from_text_length_witness :
  @caption_from_text lexicon_nlp remove_dups_order lcg_source echo_summarizer
    (u "Sunset at the beach") 0 7 =
    Ok (u "Sending you good vibes with this beach " ++ [9996; 65039], 0, 1282168116) /\
  (u "Sending you good vibes with this beach " ++ [9996; 65039] <> [] /\
   exists o outs, @summarize echo_summarizer (u "Sunset at the beach") bart_params 0 =
                    Ok (o :: outs, 0) /\
     (12 + length (main_keyword (@extract_keywords lexicon_nlp remove_dups_order (summary_text o)))
        <= length (u "Sending you good vibes with this beach " ++ [9996; 65039]%N))%nat).
Proof.
  assert (H : @caption_from_text lexicon_nlp remove_dups_order lcg_source echo_summarizer
    (u "Sunset at the beach") 0 7 =
    Ok (u "Sending you good vibes with this beach " ++ [9996; 65039], 0, 1282168116))
    by (vm_compute; reflexivity).
  split; [exact H | exact (caption_from_text_length _ _ _ _ _ _ H)].
Defined.

End CaptionFixtures.
