(* ===== verification/Hashtags.v ===== *)
(** * The hashtag suggester ([caption_utils.py] lines 74-95)

    [suggest_hashtags(caption)] opens and decodes [hashtags.json] on every
    call, extracts the keywords of the caption, appends the hashtags of
    every keyword that is a key (direct matches), then of every key that
    contains a keyword as a substring (related matches), then
    [random.sample] of three entries of the ["_trending"] value, and
    returns [list(set(matched))[:30]] with the keywords.

    The decoded file is an ordered dictionary ([HashtagDict]: a JSON object
    keeps its key order, keys are unique).  A value is iterated by
    [matched += value] ([py_iter]): an array gives its elements, a string
    its characters, an object its keys, and a number, a boolean or [null]
    raises [TypeError].  The loops as the code runs them ([direct_loop],
    [related_loop]) raise at the first such value they reach; when they
    reach none they give [direct_matches] and [related_matches], on which
    the membership theorems are stated.  [random.sample] takes a list or a
    string and refuses an object or a scalar ([trending_sample]).  JSON
    decoding is the [JsonLoader] interface; the file system is a function
    from paths to contents.  [suggest_contract] is the promise of the
    function stated on sets; [suggest_hashtags_refines] proves that the
    loops implement it. *)

From S2P Require Import Prelude PyStr PyRuntime Keywords.

(** ** The dictionary *)

(** A JSON value of the dictionary, as far as the code reads it: an array
    of strings, a string, an object (iterating it yields its keys), or a
    number, [true], [false] or [null], which cannot be iterated. *)
Inductive tag_value : Type :=
  | TagList (l : list pystr)
  | TagStr (s : pystr)
  | TagObj (keys : list pystr)
  | TagScalar.

(** The elements [v] yields when iterated ([] for a scalar, which raises
    instead). *)
Definition iter_elems (v : tag_value) : list pystr :=
  match v with
  | TagList l => l
  | TagStr s => map (fun c => [c]) s
  | TagObj ks => ks
  | TagScalar => []
  end.

(** [matched += v]: a list is extended by any iterable; a number, a
    boolean or [None] is a [TypeError] ("object is not iterable"). *)
Definition py_iter (v : tag_value) : res (list pystr) :=
  match v with
  | TagScalar => Raise TypeError
  | _ => Ok (iter_elems v)
  end.

Definition iterable (v : tag_value) : bool :=
  match v with TagScalar => false | _ => true end.

(** [random.sample] accepts a sequence (a list or a string) and raises a
    [TypeError] for a dict or a scalar ("Population must be a
    sequence"). *)
Definition is_sequence (v : tag_value) : bool :=
  match v with TagList _ | TagStr _ => true | TagObj _ | TagScalar => false end.

Abbreviation HashtagDict := (list (pystr * tag_value)).

(** [d[k]] for a present key; [None] for a missing one. *)
Definition dict_lookup (d : HashtagDict) (k : pystr) : option tag_value :=
  match List.find (fun e => bool_decide (e.1 = k)) d with
  | Some e => Some e.2
  | None => None
  end.

(** [d.get(k, default)] *)
Definition dict_get (d : HashtagDict) (k : pystr) (default : tag_value) : tag_value :=
  match dict_lookup d k with Some v => v | None => default end.

(** The decoder of [json.load]: a dictionary with unique keys, or an
    error ([JSONDecodeError] for a malformed file). *)
Class JsonLoader := {
  file_contents : Type;
  json_load : file_contents -> res HashtagDict;
  json_load_keys c d : json_load c = Ok d -> NoDup (map fst d)
}.

Section Suggest.
Context `{NlpModel} `{SetOrder} `{RandomSource} `{JsonLoader}.

(** The file system: the contents at a path, if there is a file. *)
Definition FileSystem : Type := pystr -> option file_contents.

(** [open(path, "r")] *)
Definition py_open (fs : FileSystem) (path : pystr) : res file_contents :=
  match fs path with
  | Some c => Ok c
  | None => Raise FileNotFoundError
  end.

Definition hashtags_path : pystr := u "hashtags.json".
Definition trending_key : pystr := u "_trending".

(** Lines 83-85: [for word in keywords: if word in data: matched += data[word]].
    The loop stops at the first value that cannot be iterated. *)
Fixpoint direct_loop (data : HashtagDict) (keywords : list pystr) : res (list pystr) :=
  match keywords with
  | [] => Ok []
  | w :: ws =>
      m <- match dict_lookup data w with
           | Some v => py_iter v
           | None => Ok []
           end ;;
      r <- direct_loop data ws ;;
      Ok (m ++ r)
  end.

(** Lines 88-90: [for key in data: if any(word in key for word in keywords):
    matched += data[key]] *)
Fixpoint related_loop (entries : HashtagDict) (keywords : list pystr) : res (list pystr) :=
  match entries with
  | [] => Ok []
  | (key, v) :: es =>
      m <- (if existsb (fun w => py_contains w key) keywords then py_iter v else Ok []) ;;
      r <- related_loop es keywords ;;
      Ok (m ++ r)
  end.

(** Line 93: [random.sample(hashtag_data.get("_trending", []), 3)]. *)
Definition trending_sample (data : HashtagDict) (k : nat) (rs : rng_state)
    : res (list pystr * rng_state) :=
  let v := dict_get data trending_key (TagList []) in
  if is_sequence v then py_sample (iter_elems v) k rs else Raise TypeError.

(** The values of lines 85 and 90 when every value the loops reach can be
    iterated: the loops without their error path. *)
Fixpoint direct_matches (data : HashtagDict) (keywords : list pystr) : list pystr :=
  match keywords with
  | [] => []
  | w :: ws =>
      match dict_lookup data w with
      | Some v => iter_elems v
      | None => []
      end ++ direct_matches data ws
  end.

Fixpoint related_matches (entries : HashtagDict) (keywords : list pystr) : list pystr :=
  match entries with
  | [] => []
  | (key, v) :: es =>
      (if existsb (fun w => py_contains w key) keywords then iter_elems v else [])
      ++ related_matches es keywords
  end.

(** Whether every value the loops reach can be iterated. *)
Definition direct_ok (data : HashtagDict) (keywords : list pystr) : bool :=
  forallb (fun w => match dict_lookup data w with Some v => iterable v | None => true end)
    keywords.

Definition related_ok (entries : HashtagDict) (keywords : list pystr) : bool :=
  forallb (fun e => negb (existsb (fun w => py_contains w e.1) keywords) || iterable e.2) entries.

(** Every value of the dictionary can be iterated (no number, boolean or
    [null]). *)
Definition all_iterable (data : HashtagDict) : bool := forallb (fun e => iterable e.2) data.

(** Line 93: the population of the trending sample. *)
Definition trending_pool (data : HashtagDict) : list pystr :=
  iter_elems (dict_get data trending_key (TagList [])).

(** The list [matched] before the set. *)
Definition matched (data : HashtagDict) (keywords sample : list pystr) : list pystr :=
  direct_matches data keywords ++ related_matches data keywords ++ sample.

Definition suggest_hashtags (caption : pystr) (fs : FileSystem) (rs : rng_state)
    : res ((list pystr * list pystr) * rng_state) :=
  contents <- py_open fs hashtags_path ;;
  data <- json_load contents ;;
  let keywords := extract_keywords caption in
  d <- direct_loop data keywords ;;
  r <- related_loop data keywords ;;
  s <- trending_sample data 3 rs ;;
  Ok ((take 30 (set_list (d ++ r ++ s.1)), keywords), s.2).

(** ** Lemmas *)

Lemma dict_lookup_elem d k v : dict_lookup d k = Some v -> (k, v) ∈ d.
Proof.
  unfold dict_lookup. destruct (List.find _ d) as [[k' v'] |] eqn:E; [| discriminate].
  intros [= <-]. apply find_some in E as [Hin Hk]. apply bool_decide_eq_true in Hk.
  simpl in Hk. subst. by apply list_elem_of_In.
Qed.

Lemma dict_lookup_complete d k v :
  NoDup (map fst d) -> (k, v) ∈ d -> dict_lookup d k = Some v.
Proof.
  induction d as [|[k' v'] d IH]; simpl; intros Hnd Hin; [by apply elem_of_nil in Hin |].
  apply list.NoDup_cons in Hnd as [Hk' Hnd]. unfold dict_lookup. simpl.
  apply elem_of_cons in Hin as [[= -> ->] | Hin].
  - by rewrite bool_decide_eq_true_2.
  - rewrite bool_decide_eq_false_2; [exact (IH Hnd Hin) |].
    intros <-. apply Hk', list_elem_of_fmap. by exists (k', v).
Qed.

Lemma direct_matches_elem data kws h :
  h ∈ direct_matches data kws <->
  exists w v, w ∈ kws /\ dict_lookup data w = Some v /\ h ∈ iter_elems v.
Proof.
  induction kws as [|w ws IH]; simpl.
  - split; [by intros ?%elem_of_nil | by intros (? & ? & ?%elem_of_nil & _)].
  - rewrite elem_of_app, IH. split.
    + intros [Hh | (w' & v & Hw & Hl & Hv)].
      * destruct (dict_lookup data w) as [v |] eqn:E; [| by apply elem_of_nil in Hh].
        exists w, v. split; [apply list_elem_of_here | done].
      * exists w', v. split; [by apply elem_of_cons; right | done].
    + intros (w' & v & [-> | Hw]%elem_of_cons & Hl & Hv).
      * left. by rewrite Hl.
      * right. eauto.
Qed.

Lemma related_matches_elem entries kws h :
  h ∈ related_matches entries kws <->
  exists key v, (key, v) ∈ entries /\ (exists w, w ∈ kws /\ py_contains w key = true) /\
                h ∈ iter_elems v.
Proof.
  induction entries as [|[key v] es IH]; simpl.
  - split; [by intros ?%elem_of_nil | by intros (? & ? & ?%elem_of_nil & _)].
  - rewrite elem_of_app, IH. split.
    + intros [Hh | (k' & v' & Hin & Hw & Hv)].
      * destruct (existsb _ kws) eqn:E; [| by apply elem_of_nil in Hh].
        apply existsb_exists in E as (w & Hw & Hc).
        exists key, v. split; [apply list_elem_of_here |].
        split; [exists w; by rewrite list_elem_of_In | done].
      * exists k', v'. split; [by apply elem_of_cons; right | done].
    + intros (k' & v' & [[= -> ->] | Hin]%elem_of_cons & (w & Hw & Hc) & Hv).
      * left. rewrite (proj2 (existsb_exists _ kws)); [done |].
        exists w. by rewrite <- list_elem_of_In.
      * right. eauto 10.
Qed.

Lemma py_iter_spec v :
  py_iter v = if iterable v then Ok (iter_elems v) else Raise TypeError.
Proof. by destruct v. Qed.

(** The loops of lines 83-90 raise exactly when they reach a value that
    cannot be iterated, and otherwise give [direct_matches] and
    [related_matches]. *)
Lemma direct_loop_spec data kws :
  direct_loop data kws =
    if direct_ok data kws then Ok (direct_matches data kws) else Raise TypeError.
Proof.
  unfold direct_ok. induction kws as [|w ws IH]; [done |]. cbn [direct_loop forallb direct_matches].
  destruct (dict_lookup data w) as [v |];
    [rewrite py_iter_spec; destruct (iterable v) |]; cbn [res_bind andb];
    rewrite ?IH; [destruct (forallb _ ws) | | destruct (forallb _ ws)]; reflexivity.
Qed.

Lemma related_loop_spec entries kws :
  related_loop entries kws =
    if related_ok entries kws then Ok (related_matches entries kws) else Raise TypeError.
Proof.
  unfold related_ok. induction entries as [|[key v] es IH]; [done |].
  cbn [related_loop forallb related_matches fst snd].
  destruct (existsb _ kws); cbn [negb orb];
    [rewrite py_iter_spec; destruct (iterable v) |]; cbn [res_bind andb];
    rewrite ?IH; [destruct (forallb _ es) | | destruct (forallb _ es)]; reflexivity.
Qed.

(** A run whose loops reach only iterable values and whose trending value
    is a sequence: the sample, then the set and the cut. *)
Lemma suggest_hashtags_run caption fs rs c data :
  fs hashtags_path = Some c -> json_load c = Ok data ->
  direct_ok data (extract_keywords caption) = true ->
  related_ok data (extract_keywords caption) = true ->
  is_sequence (dict_get data trending_key (TagList [])) = true ->
  suggest_hashtags caption fs rs =
    (s <- py_sample (trending_pool data) 3 rs ;;
     Ok ((take 30 (set_list (matched data (extract_keywords caption) s.1)),
          extract_keywords caption), s.2)).
Proof.
  intros Hf Hj Hd Hr Ht. unfold suggest_hashtags, py_open.
  rewrite Hf; cbn [res_bind]. rewrite Hj; cbn [res_bind].
  rewrite direct_loop_spec, Hd; cbn [res_bind]. rewrite related_loop_spec, Hr; cbn [res_bind].
  unfold trending_sample. cbv zeta. rewrite Ht.
  change (iter_elems (dict_get data trending_key (TagList []))) with (trending_pool data).
  by destruct (py_sample (trending_pool data) 3 rs) as [[x y] |].
Qed.

(** A run whose loops reach a value that cannot be iterated. *)
Lemma suggest_hashtags_loops_raise caption fs rs c data :
  fs hashtags_path = Some c -> json_load c = Ok data ->
  direct_ok data (extract_keywords caption) = false \/
  related_ok data (extract_keywords caption) = false ->
  suggest_hashtags caption fs rs = Raise TypeError.
Proof.
  intros Hf Hj Hno. unfold suggest_hashtags, py_open.
  rewrite Hf; cbn [res_bind]. rewrite Hj; cbn [res_bind].
  rewrite direct_loop_spec, related_loop_spec.
  destruct (direct_ok _ _), (related_ok _ _); [by destruct Hno | done ..].
Qed.

(** The successful runs of [suggest_hashtags]: the file, its decoding and
    the sample they went through. *)
Lemma suggest_hashtags_inv caption fs rs tags kws rs' :
  suggest_hashtags caption fs rs = Ok ((tags, kws), rs') ->
  exists c data sample,
    fs hashtags_path = Some c /\ json_load c = Ok data /\
    py_sample (trending_pool data) 3 rs = Ok (sample, rs') /\
    kws = extract_keywords caption /\
    tags = take 30 (set_list (matched data kws sample)).
Proof.
  unfold suggest_hashtags, py_open. intros Hs.
  destruct (fs hashtags_path) as [c |] eqn:Hf; [| discriminate]. cbn [res_bind] in Hs.
  destruct (json_load c) as [data |] eqn:Hj; [| discriminate]. cbn [res_bind] in Hs.
  rewrite direct_loop_spec, related_loop_spec in Hs.
  destruct (direct_ok _ _); [| discriminate]. destruct (related_ok _ _); [| discriminate].
  cbn [res_bind] in Hs. unfold trending_sample in Hs. cbv zeta in Hs.
  destruct (is_sequence _); [| discriminate].
  change (iter_elems (dict_get data trending_key (TagList []))) with (trending_pool data) in Hs.
  destruct (py_sample (trending_pool data) 3 rs) as [[sample rs''] |] eqn:Hp; [| discriminate].
  cbn [res_bind fst snd] in Hs. injection Hs as <- <- <-.
  exists c, data, sample. done.
Qed.

Lemma all_iterable_elem data key v : all_iterable data = true -> (key, v) ∈ data -> iterable v = true.
Proof.
  unfold all_iterable. intros Hall Hin%list_elem_of_In.
  exact (proj1 (forallb_forall _ _) Hall _ Hin).
Qed.

Lemma all_iterable_ok data kws :
  all_iterable data = true -> direct_ok data kws = true /\ related_ok data kws = true.
Proof.
  intros Hall. split; apply forallb_forall.
  - intros w _. destruct (dict_lookup data w) as [v |] eqn:E; [| done].
    by eapply all_iterable_elem, dict_lookup_elem.
  - intros [key v] Hin%list_elem_of_In. cbn [fst snd].
    rewrite (all_iterable_elem data key v Hall Hin). apply orb_true_r.
Qed.

(** A caption none of whose keywords occurs in a key reaches no value. *)
Lemma no_match_ok data kws :
  (forall w key v, w ∈ kws -> (key, v) ∈ data -> py_contains w key = false) ->
  direct_ok data kws = true /\ related_ok data kws = true.
Proof.
  intros Hno. split; apply forallb_forall.
  - intros w Hw%list_elem_of_In. destruct (dict_lookup data w) as [v |] eqn:E; [| done].
    pose proof (Hno w w v Hw (dict_lookup_elem _ _ _ E)). by rewrite py_contains_refl in *.
  - intros [key v] Hin%list_elem_of_In. cbn [fst snd].
    replace (existsb _ kws) with false; [done |]. symmetry. apply not_true_is_false.
    intros (w & Hw & Hc)%existsb_exists. apply list_elem_of_In in Hw.
    by rewrite (Hno w key v Hw Hin) in Hc.
Qed.

End Suggest.

Section SuggestTheorems.
Context `{NlpModel} `{SetOrder} `{RandomSource} `{JsonLoader}.

Lemma suggest_result_bounds caption fs rs tags kws rs' :
  suggest_hashtags caption fs rs = Ok ((tags, kws), rs') ->
  length tags <= 30 /\ NoDup tags.
Proof.
  intros (c & data & sample & _ & _ & _ & _ & ->)%suggest_hashtags_inv.
  split; [apply firstn_le_length | apply NoDup_take, set_list_NoDup].
Qed.

(** C1: whatever the caption and the dictionary, a successful call returns
    at most 30 hashtags and no hashtag twice. *)
Theorem suggest_hashtags_bounds caption fs rs tags kws rs' :
  suggest_hashtags caption fs rs = Ok ((tags, kws), rs') ->
  length tags <= 30 /\ NoDup tags.
Proof. apply suggest_result_bounds. Qed.

(** Membership in [matched], component by component. *)
Lemma matched_elem data kws sample h :
  h ∈ matched data kws sample <->
  h ∈ direct_matches data kws \/ h ∈ related_matches data kws \/ h ∈ sample.
Proof. unfold matched. by rewrite !elem_of_app. Qed.

(** C2: every returned hashtag is a hashtag of a key equal to a keyword, of
    a key containing a keyword, or an entry of the trending list. *)
Theorem suggest_hashtags_sound caption fs rs tags kws rs' h :
  suggest_hashtags caption fs rs = Ok ((tags, kws), rs') -> h ∈ tags ->
  exists c data, fs hashtags_path = Some c /\ json_load c = Ok data /\
    ((exists w v, w ∈ kws /\ dict_lookup data w = Some v /\ h ∈ iter_elems v) \/
     (exists key v, (key, v) ∈ data /\ (exists w, w ∈ kws /\ py_contains w key = true) /\
                    h ∈ iter_elems v) \/
     h ∈ trending_pool data).
Proof.
  intros (c & data & sample & Hf & Hj & Hs & -> & ->)%suggest_hashtags_inv Hh.
  exists c, data. split; [done |]. split; [done |].
  apply elem_of_take_in, set_list_elem, matched_elem in Hh.
  rewrite direct_matches_elem, related_matches_elem in Hh.
  destruct (py_sample_Ok_inv _ _ _ _ _ Hs) as (_ & _ & Hpop & _).
  destruct Hh as [Hh | [Hh | Hh]]; [left | right; left | right; right; by apply Hpop]; exact Hh.
Qed.

(** C3: when there are at most 30 distinct candidates nothing is cut: the
    result holds exactly the direct matches, the related matches and the
    three sampled trending tags. *)
Theorem suggest_hashtags_complete caption fs rs tags kws rs' :
  suggest_hashtags caption fs rs = Ok ((tags, kws), rs') ->
  exists c data sample, fs hashtags_path = Some c /\ json_load c = Ok data /\
    py_sample (trending_pool data) 3 rs = Ok (sample, rs') /\
    (length (set_list (matched data kws sample)) <= 30 ->
     forall h, h ∈ tags <-> h ∈ matched data kws sample).
Proof.
  intros (c & data & sample & Hf & Hj & Hs & Hk & ->)%suggest_hashtags_inv.
  exists c, data, sample. do 3 (split; [done |]). intros Hlen h.
  by rewrite take_short, set_list_elem.
Qed.

(** C6: the error paths: a missing file is a [FileNotFoundError], a decoding
    error propagates, and, for a dictionary whose values can all be
    iterated and whose trending value is a list or a string, a trending
    list of fewer than three entries (a missing ["_trending"] key
    included) is the [ValueError] of [random.sample]. *)
Theorem suggest_hashtags_errors caption fs rs :
  (fs hashtags_path = None -> suggest_hashtags caption fs rs = Raise FileNotFoundError) /\
  (forall c e, fs hashtags_path = Some c -> json_load c = Raise e ->
     suggest_hashtags caption fs rs = Raise e) /\
  (forall c data, fs hashtags_path = Some c -> json_load c = Ok data ->
     all_iterable data = true -> is_sequence (dict_get data trending_key (TagList [])) = true ->
     length (trending_pool data) < 3 -> suggest_hashtags caption fs rs = Raise ValueError).
Proof.
  repeat split.
  - intros Hf. unfold suggest_hashtags, py_open. by rewrite Hf.
  - intros c e Hf Hj. unfold suggest_hashtags, py_open. by rewrite Hf; cbn [res_bind]; rewrite Hj.
  - intros c data Hf Hj Hall Hseq Hlt. destruct (all_iterable_ok data (extract_keywords caption) Hall).
    rewrite (suggest_hashtags_run caption fs rs c data) by done.
    by rewrite py_sample_too_large.
Qed.

(** C11: the dictionary values the code cannot use are [TypeError]s,
    raised when the loops reach them: a keyword that is a key whose value
    is a number, a boolean or [null]; a key containing a keyword with such
    a value; or, once the loops have passed, a ["_trending"] value that is
    not a list or a string (an object or a scalar), which [random.sample]
    refuses. *)
Theorem suggest_hashtags_type_errors caption fs rs c data :
  fs hashtags_path = Some c -> json_load c = Ok data ->
  ((exists w, w ∈ extract_keywords caption /\ dict_lookup data w = Some TagScalar) ->
     suggest_hashtags caption fs rs = Raise TypeError) /\
  ((exists key w, (key, TagScalar) ∈ data /\ w ∈ extract_keywords caption /\
                  py_contains w key = true) ->
     suggest_hashtags caption fs rs = Raise TypeError) /\
  (direct_ok data (extract_keywords caption) = true ->
   related_ok data (extract_keywords caption) = true ->
   is_sequence (dict_get data trending_key (TagList [])) = false ->
     suggest_hashtags caption fs rs = Raise TypeError).
Proof.
  intros Hf Hj. split; [| split].
  - intros (w & Hw & Hl). apply (suggest_hashtags_loops_raise caption fs rs c data Hf Hj).
    left. apply not_true_is_false. intros Hok. unfold direct_ok in Hok.
    rewrite forallb_forall in Hok. apply list_elem_of_In in Hw.
    specialize (Hok w Hw). by rewrite Hl in Hok.
  - intros (key & w & Hin & Hw & Hc). apply (suggest_hashtags_loops_raise caption fs rs c data Hf Hj).
    right. apply not_true_is_false. intros Hok. unfold related_ok in Hok.
    rewrite forallb_forall in Hok. apply list_elem_of_In in Hin.
    specialize (Hok _ Hin). cbn [fst snd] in Hok.
    rewrite (proj2 (existsb_exists _ _)) in Hok; [done |].
    exists w. split; [by apply list_elem_of_In | exact Hc].
  - intros Hd Hr Hseq. unfold suggest_hashtags, py_open.
    rewrite Hf; cbn [res_bind]. rewrite Hj; cbn [res_bind].
    rewrite direct_loop_spec, Hd; cbn [res_bind]. rewrite related_loop_spec, Hr; cbn [res_bind].
    unfold trending_sample. cbv zeta. by rewrite Hseq.
Qed.

Lemma trending_pool_missing data :
  dict_lookup data trending_key = None -> trending_pool data = [].
Proof. intros Hn. unfold trending_pool, dict_get. by rewrite Hn. Qed.

(** No keyword inside a key: no direct and no related match. *)
Lemma no_match_nil data kws :
  (forall w key v, w ∈ kws -> (key, v) ∈ data -> py_contains w key = false) ->
  direct_matches data kws = [] /\ related_matches data kws = [].
Proof.
  intros Hno. split; apply elem_of_nil_inv; intros h Hh.
  - apply direct_matches_elem in Hh as (w & v & Hw & Hl%dict_lookup_elem & _).
    pose proof (Hno w w v Hw Hl). by rewrite py_contains_refl in *.
  - apply related_matches_elem in Hh as (key & v & Hin & (w & Hw & Hc) & _).
    by rewrite (Hno w key v Hw Hin) in Hc.
Qed.

Lemma set_list_length_same l l' :
  NoDup l' -> (forall x, x ∈ l <-> x ∈ l') -> length (set_list l) = length l'.
Proof.
  intros Hl' Heq. apply Permutation_length, NoDup_Permutation; [apply set_list_NoDup | done |].
  intros x. by rewrite set_list_elem.
Qed.

(** C4: when no keyword occurs in any key (so no direct and no related
    match, and no value is reached) and the trending value is a list or a
    string of at least three distinct entries, the result is exactly three
    trending tags. *)
Theorem suggest_hashtags_no_match caption fs rs c data :
  fs hashtags_path = Some c -> json_load c = Ok data ->
  (forall w key v, w ∈ extract_keywords caption -> (key, v) ∈ data -> py_contains w key = false) ->
  is_sequence (dict_get data trending_key (TagList [])) = true ->
  NoDup (trending_pool data) -> 3 <= length (trending_pool data) ->
  exists tags rs', suggest_hashtags caption fs rs = Ok ((tags, extract_keywords caption), rs') /\
    length tags = 3 /\ (forall h, h ∈ tags -> h ∈ trending_pool data).
Proof.
  intros Hf Hj Hno Hseq Hnd Hlen.
  destruct (no_match_ok data _ Hno) as [Hdok Hrok].
  destruct (py_sample_ok (trending_pool data) 3 rs Hlen) as (s & rs' & Hs & Hslen & Hsub & Hsnd).
  destruct (no_match_nil data _ Hno) as [Hd Hr].
  assert (Hset : length (set_list (matched data (extract_keywords caption) s)) = 3).
  { rewrite <- Hslen. apply set_list_length_same; [by apply Hsnd |].
    intros x. rewrite matched_elem, Hd, Hr, !elem_of_nil. tauto. }
  exists (take 30 (set_list (matched data (extract_keywords caption) s))), rs'. split.
  - rewrite (suggest_hashtags_run caption fs rs c data) by done. by rewrite Hs.
  - rewrite take_short by lia. split; [done |].
    intros h Hh%set_list_elem%matched_elem. rewrite Hd, Hr, !elem_of_nil in Hh.
    destruct Hh as [[] | [[] | Hh]]. by apply Hsub.
Qed.

(** ** The contract of [suggest_hashtags]

    What the function promises, stated on sets rather than on the loops:
    a hashtag is a candidate when it is a value of a key equal to a
    keyword, of a key containing a keyword as a substring, or a sampled
    trending tag.  The result is the keywords of the caption without
    repetition, and distinct candidates: all of them, or thirty. *)
Definition substring (w key : pystr) : Prop := exists p s, key = p ++ w ++ s.

Definition candidate (data : HashtagDict) (kws sample : list pystr) (h : pystr) : Prop :=
  (exists w v, w ∈ kws /\ (w, v) ∈ data /\ h ∈ iter_elems v) \/
  (exists key v, (key, v) ∈ data /\ (exists w, w ∈ kws /\ substring w key) /\ h ∈ iter_elems v) \/
  h ∈ sample.

Definition suggest_contract (caption : pystr) (data : HashtagDict)
    (sample tags kws : list pystr) : Prop :=
  NoDup kws /\ (forall x, x ∈ kws <-> is_keyword_of (nlp (py_lower caption)) x) /\
  length sample = 3 /\ (forall h, h ∈ sample -> h ∈ trending_pool data) /\
  NoDup tags /\ length tags <= 30 /\ (forall h, h ∈ tags -> candidate data kws sample h) /\
  (length tags = 30 \/ forall h, candidate data kws sample h -> h ∈ tags).

(** On a dictionary with unique keys the candidates are the members of
    [matched]. *)
Lemma candidate_matched data kws sample h :
  NoDup (map fst data) -> candidate data kws sample h <-> h ∈ matched data kws sample.
Proof.
  intros Hkeys. unfold candidate, substring.
  rewrite matched_elem, direct_matches_elem, related_matches_elem. split.
  - intros [(w & v & Hw & Hin & Hh) | [(key & v & Hin & (w & Hw & Hc) & Hh) | Hh]].
    + left. exists w, v. by rewrite (dict_lookup_complete data w v).
    + right; left. exists key, v. split; [done |]. split; [| done].
      exists w. by rewrite py_contains_spec.
    + by right; right.
  - intros [(w & v & Hw & Hl%dict_lookup_elem & Hh) | [(key & v & Hin & (w & Hw & Hc) & Hh) | Hh]].
    + left. eauto.
    + right; left. exists key, v. split; [done |]. split; [| done].
      exists w. by rewrite <- py_contains_spec.
    + by right; right.
Qed.

Lemma take_set_list_cases l :
  length (take 30 (set_list l)) = 30 \/ take 30 (set_list l) = set_list l.
Proof.
  destruct (decide (30 <= length (set_list l))) as [Hle | Hlt].
  - left. rewrite length_take. lia.
  - right. apply take_short. lia.
Qed.

Lemma suggest_refines caption fs rs tags kws rs' :
  suggest_hashtags caption fs rs = Ok ((tags, kws), rs') ->
  exists c data sample, fs hashtags_path = Some c /\ json_load c = Ok data /\
    py_sample (trending_pool data) 3 rs = Ok (sample, rs') /\
    suggest_contract caption data sample tags kws.
Proof.
  intros (c & data & sample & Hf & Hj & Hs & -> & ->)%suggest_hashtags_inv.
  pose proof (json_load_keys c data Hj) as Hkeys.
  destruct (py_sample_Ok_inv _ _ _ _ _ Hs) as (_ & Hlen & Hpop & _).
  exists c, data, sample. do 3 (split; [done |]).
  split; [apply extract_keywords_NoDup |]. split; [apply extract_keywords_elem |].
  do 2 (split; [done |]).
  split; [apply NoDup_take, set_list_NoDup |]. split; [apply firstn_le_length |].
  split.
  - intros h Hh. apply elem_of_take_in in Hh. rewrite set_list_elem in Hh. exact (proj2 (candidate_matched _ _ _ _ Hkeys) Hh).
  - destruct (take_set_list_cases (matched data (extract_keywords caption) sample)) as [H30 | ->];
      [by left | right].
    intros h Hh. by apply set_list_elem, (candidate_matched _ _ _ _ Hkeys).
Qed.

(** C23: [suggest_hashtags] implements its contract: every successful call
    read and decoded the file, drew three trending tags, and returns the
    keywords of the caption and a duplicate-free choice of at most thirty
    candidates that is all of them or exactly thirty of them. *)
Theorem suggest_hashtags_refines caption fs rs tags kws rs' :
  suggest_hashtags caption fs rs = Ok ((tags, kws), rs') ->
  exists c data sample, fs hashtags_path = Some c /\ json_load c = Ok data /\
    py_sample (trending_pool data) 3 rs = Ok (sample, rs') /\
    suggest_contract caption data sample tags kws.
Proof. apply suggest_refines. Qed.

(** A successful call exists whenever the file is there, decodes to
    iterable values, and has a trending list or string of at least three
    entries. *)
Lemma suggest_hashtags_exists caption fs rs c data :
  fs hashtags_path = Some c -> json_load c = Ok data -> all_iterable data = true ->
  is_sequence (dict_get data trending_key (TagList [])) = true ->
  3 <= length (trending_pool data) ->
  exists tags rs', suggest_hashtags caption fs rs = Ok ((tags, extract_keywords caption), rs').
Proof.
  intros Hf Hj Hall Hseq Hlen. destruct (all_iterable_ok data (extract_keywords caption) Hall).
  destruct (py_sample_ok (trending_pool data) 3 rs Hlen) as (s & rs' & Hs & _).
  rewrite (suggest_hashtags_run caption fs rs c data) by done. rewrite Hs. eauto.
Qed.

(** C19: [random.sample] draws positions and the set merges equal
    entries: when no keyword occurs in a key and the trending list is
    [[a; a; b]], the three sampled tags are every entry of the list and the
    result has two hashtags, [a] and [b], not three. *)
Theorem suggest_hashtags_duplicate_trending caption fs rs c data a b :
  fs hashtags_path = Some c -> json_load c = Ok data ->
  (forall w key v, w ∈ extract_keywords caption -> (key, v) ∈ data -> py_contains w key = false) ->
  dict_get data trending_key (TagList []) = TagList [a; a; b] -> a <> b ->
  exists tags rs', suggest_hashtags caption fs rs = Ok ((tags, extract_keywords caption), rs') /\
    length tags = 2 /\ (forall h, h ∈ tags <-> h = a \/ h = b).
Proof.
  intros Hf Hj Hno Ht Hab.
  assert (Hpool : trending_pool data = [a; a; b]) by (unfold trending_pool; by rewrite Ht).
  destruct (no_match_ok data _ Hno) as [Hdok Hrok].
  destruct (no_match_nil data _ Hno) as [Hd Hr].
  destruct (py_sample_ok (trending_pool data) 3 rs) as (s & rs' & Hs & _ & Hsub & _);
    [by rewrite Hpool |].
  assert (Hfull : forall y, y ∈ trending_pool data -> y ∈ s).
  { apply (py_sample_full _ rs s rs'). replace (length (trending_pool data)) with 3 by (by rewrite Hpool). exact Hs. }
  assert (Hmem : forall h, h ∈ matched data (extract_keywords caption) s <-> h = a \/ h = b).
  { intros h. rewrite matched_elem, Hd, Hr, !elem_of_nil. split.
    - intros [[] | [[] | Hh%Hsub]]. rewrite Hpool in Hh.
      repeat apply elem_of_cons in Hh as [-> | Hh]; auto. by apply elem_of_nil in Hh.
    - intros Hh. right; right. apply Hfull. rewrite Hpool.
      destruct Hh as [-> | ->]; [apply list_elem_of_here |].
      do 2 (apply elem_of_cons; right). apply list_elem_of_here. }
  assert (Hlen : length (set_list (matched data (extract_keywords caption) s)) = 2).
  { rewrite (set_list_length_same _ [a; b]); [done | |].
    - constructor; [by intros ->%list_elem_of_singleton | constructor; [apply not_elem_of_nil | constructor]].
    - intros x. rewrite Hmem, elem_of_cons, list_elem_of_singleton. done. }
  exists (take 30 (set_list (matched data (extract_keywords caption) s))), rs'. split.
  - rewrite (suggest_hashtags_run caption fs rs c data) by (try done; by rewrite Ht). by rewrite Hs.
  - rewrite take_short by lia. split; [exact Hlen |]. intros h. by rewrite set_list_elem, Hmem.
Qed.

(** C20: a keyword that occurs inside the reserved key ["_trending"] (such
    as "trending", "trend" or "end") makes the related loop add the whole
    trending list: when fewer than thirty hashtags are returned, every
    trending tag is among them, not only the three sampled ones. *)
Theorem suggest_hashtags_trending_keyword caption fs rs tags kws rs' tl w :
  suggest_hashtags caption fs rs = Ok ((tags, kws), rs') ->
  (exists c data, fs hashtags_path = Some c /\ json_load c = Ok data /\
     dict_lookup data trending_key = Some (TagList tl)) ->
  w ∈ kws -> py_contains w trending_key = true -> length tags < 30 ->
  forall h, h ∈ tl -> h ∈ tags.
Proof.
  intros (c & data & sample & Hf & Hj & _ & -> & ->)%suggest_hashtags_inv
         (c' & data' & Hf' & Hj' & Hl) Hw Hc Hlt h Hh.
  rewrite Hf in Hf'. injection Hf' as <-. rewrite Hj in Hj'. injection Hj' as <-.
  destruct (take_set_list_cases (matched data (extract_keywords caption) sample)) as [H30 | ->];
    [lia |].
  apply set_list_elem, matched_elem. right; left. apply related_matches_elem.
  exists trending_key, (TagList tl). split; [exact (dict_lookup_elem _ _ _ Hl) |].
  split; [by exists w | exact Hh].
Qed.

End SuggestTheorems.

(** ** The example of the specification *)

Definition beach_dict : HashtagDict := [
  (u "beach", TagList [u "#beach"]);
  (trending_key, TagList [u "#a"; u "#b"; u "#c"; u "#d"])
].

Section BeachExample.
Context `{NlpModel} `{SetOrder} `{RandomSource} `{JsonLoader}.

Lemma beach_dict_elem key v :
  (key, v) ∈ beach_dict ->
  (key = u "beach" /\ v = TagList [u "#beach"]) \/
  (key = trending_key /\ v = TagList [u "#a"; u "#b"; u "#c"; u "#d"]).
Proof.
  unfold beach_dict. intros [[= -> ->] | [[= -> ->] | []%elem_of_nil]%elem_of_cons]%elem_of_cons;
    auto.
Qed.

Lemma beach_matched_elem kws s h :
  u "beach" ∈ kws -> (forall w, w ∈ kws -> py_contains w trending_key = false) ->
  h ∈ matched beach_dict kws s <-> h = u "#beach" \/ h ∈ s.
Proof.
  intros Hb Hno. rewrite matched_elem, direct_matches_elem, related_matches_elem. split.
  - intros [(w & v & Hw & Hl%dict_lookup_elem & Hh) | [(key & v & Hin & (w & Hw & Hc) & Hh) | Hh]];
      [| | by right].
    + destruct (beach_dict_elem _ _ Hl) as [[-> ->] | [-> _]].
      * left. by apply list_elem_of_singleton in Hh.
      * specialize (Hno _ Hw). by rewrite py_contains_refl in Hno.
    + destruct (beach_dict_elem _ _ Hin) as [[-> ->] | [-> _]].
      * left. by apply list_elem_of_singleton in Hh.
      * by rewrite (Hno w Hw) in Hc.
  - intros [-> | Hh]; [| by right; right].
    left. exists (u "beach"), (TagList [u "#beach"]).
    split; [done |]. split; [reflexivity | apply list_elem_of_here].
Qed.

(** C5: with the dictionary of the specification, a caption whose keywords
    include ["beach"] (and none inside ["_trending"]) gets ["#beach"] and
    exactly three of the four trending tags: four hashtags. *)
Theorem suggest_hashtags_beach caption fs rs c :
  fs hashtags_path = Some c -> json_load c = Ok beach_dict ->
  u "beach" ∈ extract_keywords caption ->
  (forall w, w ∈ extract_keywords caption -> py_contains w trending_key = false) ->
  exists tags rs' s,
    suggest_hashtags caption fs rs = Ok ((tags, extract_keywords caption), rs') /\
    length tags = 4 /\ length s = 3 /\ NoDup s /\
    (forall h, h ∈ s -> h ∈ [u "#a"; u "#b"; u "#c"; u "#d"]) /\
    (forall h, h ∈ tags <-> h = u "#beach" \/ h ∈ s).
Proof.
  intros Hf Hj Hb Hno.
  destruct (py_sample_ok (trending_pool beach_dict) 3 rs) as (s & rs' & Hs & Hslen & Hsub & Hsnd);
    [simpl; lia |].
  assert (Hsnd' : NoDup s) by (apply Hsnd, (bool_decide_unpack _); vm_compute; reflexivity).
  assert (Hfresh : u "#beach" ∉ s).
  { intros Hin%Hsub. revert Hin. apply (bool_decide_unpack _). vm_compute. reflexivity. }
  assert (Hset : length (set_list (matched beach_dict (extract_keywords caption) s)) = 4).
  { rewrite (set_list_length_same _ (u "#beach" :: s)); [simpl; lia | by constructor |].
    intros x. rewrite beach_matched_elem, elem_of_cons by done. tauto. }
  exists (take 30 (set_list (matched beach_dict (extract_keywords caption) s))), rs', s.
  split; [| split; [rewrite take_short; lia | split; [done | split; [done | split; [exact Hsub |]]]]].
  - destruct (all_iterable_ok beach_dict (extract_keywords caption) eq_refl).
    rewrite (suggest_hashtags_run caption fs rs c beach_dict) by done. by rewrite Hs.
  - intros h. rewrite take_short by lia. by rewrite set_list_elem, beach_matched_elem.
Qed.

End BeachExample.

(** ** Independence from the set order

    CPython's iteration order of a set of strings changes with the hash
    seed of the process.  The candidates depend on the keywords only
    through their members, so two runs that differ only in the set order
    agree on everything but the order. *)

#[export] Instance direct_matches_proper data :
  Proper (same_elems ==> same_elems) (direct_matches data).
Proof.
  intros k1 k2 Hk h. rewrite !direct_matches_elem.
  split; intros (w & v & Hw & ?); exists w, v; [rewrite <- (Hk w) | rewrite (Hk w)]; done.
Qed.

#[export] Instance related_matches_proper data :
  Proper (same_elems ==> same_elems) (related_matches data).
Proof.
  intros k1 k2 Hk h. rewrite !related_matches_elem.
  split; intros (key & v & Hin & (w & Hw & Hc) & Hh); exists key, v;
    (split; [done | split; [exists w | done]]); [rewrite <- (Hk w) | rewrite (Hk w)]; done.
Qed.

#[export] Instance matched_proper data :
  Proper (same_elems ==> eq ==> same_elems) (matched data).
Proof. intros k1 k2 Hk s ? <-. unfold matched. by rewrite Hk. Qed.

Lemma set_list_same_elems (O1 O2 : SetOrder) l1 l2 :
  same_elems l1 l2 -> same_elems (@set_list O1 l1) (@set_list O2 l2).
Proof. intros Hl x. rewrite !set_list_elem. apply Hl. Qed.

Lemma set_list_same_length (O1 O2 : SetOrder) l1 l2 :
  same_elems l1 l2 -> length (@set_list O1 l1) = length (@set_list O2 l2).
Proof.
  intros Hl. apply Permutation_length, NoDup_Permutation; [apply set_list_NoDup.. |].
  by apply set_list_same_elems.
Qed.

Section OrderIndependence.
Context `{NlpModel} `{RandomSource} `{JsonLoader}.

(** C18: two runs under different set orders draw the same sample, find the
    same keywords and return as many hashtags; when fewer than 30 are
    returned they are the same hashtags. *)
Theorem suggest_hashtags_order_independent (O1 O2 : SetOrder) caption fs rs
    t1 k1 r1 t2 k2 r2 :
  @suggest_hashtags _ O1 _ _ caption fs rs = Ok ((t1, k1), r1) ->
  @suggest_hashtags _ O2 _ _ caption fs rs = Ok ((t2, k2), r2) ->
  r1 = r2 /\ same_elems k1 k2 /\ length t1 = length t2 /\
  (length t1 < 30 -> same_elems t1 t2).
Proof.
  intros (c1 & d1 & s1 & Hf1 & Hj1 & Hs1 & -> & ->)%suggest_hashtags_inv
         (c2 & d2 & s2 & Hf2 & Hj2 & Hs2 & -> & ->)%suggest_hashtags_inv.
  rewrite Hf1 in Hf2. injection Hf2 as <-. rewrite Hj1 in Hj2. injection Hj2 as <-.
  rewrite Hs1 in Hs2. injection Hs2 as <- <-.
  assert (Hk : same_elems (@extract_keywords _ O1 caption) (@extract_keywords _ O2 caption)).
  { intros x. by rewrite !extract_keywords_elem. }
  assert (Hm := set_list_same_elems O1 O2 _ _ (matched_proper d1 _ _ Hk s1 s1 eq_refl)).
  assert (Hl := set_list_same_length O1 O2 _ _ (matched_proper d1 _ _ Hk s1 s1 eq_refl)).
  split; [done |]. split; [done |]. split; [by rewrite !length_take, Hl |].
  rewrite length_take. intros Hlt. rewrite !take_short by lia. exact Hm.
Qed.

End OrderIndependence.

(** ** Runs for evaluation *)
Module HashtagFixtures.
Import KeywordFixtures.

(** A decoder over already-parsed dictionaries: duplicate keys are
    refused. *)
#[export] Program Instance dict_loader : JsonLoader := {|
  file_contents := HashtagDict;
  json_load d := if decide (NoDup (map fst d)) then Ok d else Raise JSONDecodeError
|}.
Next Obligation.
  intros d d'. simpl. case_decide; [by intros [= <-] | discriminate].
Qed.

(** A directory holding only [hashtags.json]. *)
Definition files (d : HashtagDict) : @FileSystem dict_loader :=
  fun p => if decide (p = hashtags_path) then Some d else None.

Definition seed0 : @rng_state lcg_source := 0%N.
Definition seed1 : @rng_state lcg_source := 12345%N.

Definition beach_caption : pystr := u "sunset at the beach".
Definition beach_keywords : list pystr := [u "beach"; u "sunset"; u "at the beach"].
Definition beach_tags : list pystr := [u "#beach"; u "#a"; u "#b"; u "#c"].

Lemma beach_run :
  suggest_hashtags beach_caption (files beach_dict) seed0 = Ok ((beach_tags, beach_keywords), seed1).
Proof. vm_compute. reflexivity. Qed.

(** Checks a property of every keyword of a concrete list. *)
Ltac each_keyword Hw :=
  repeat (apply elem_of_cons in Hw as [-> | Hw]; [vm_compute; reflexivity |]);
  by apply elem_of_nil in Hw.

Lemma suggest_hashtags_bounds_witness :
  suggest_hashtags beach_caption (files beach_dict) seed0 = Ok ((beach_tags, beach_keywords), seed1) /\
  length beach_tags <= 30 /\ NoDup beach_tags.
Proof. split; [exact beach_run | exact (suggest_hashtags_bounds _ _ _ _ _ _ beach_run)]. Defined.

Lemma suggest_hashtags_sound_witness :
  u "#beach" ∈ beach_tags /\
  exists c data, files beach_dict hashtags_path = Some c /\ json_load c = Ok data /\
    ((exists w v, w ∈ beach_keywords /\ dict_lookup data w = Some v /\ u "#beach" ∈ iter_elems v) \/
     (exists key v, (key, v) ∈ data /\
        (exists w, w ∈ beach_keywords /\ py_contains w key = true) /\ u "#beach" ∈ iter_elems v) \/
     u "#beach" ∈ trending_pool data).
Proof.
  split; [apply list_elem_of_here |].
  exact (suggest_hashtags_sound _ _ _ _ _ _ _ beach_run (list_elem_of_here _ _)).
Defined.

Lemma suggest_hashtags_complete_witness :
  suggest_hashtags beach_caption (files beach_dict) seed0 = Ok ((beach_tags, beach_keywords), seed1) /\
  exists c data sample, files beach_dict hashtags_path = Some c /\ json_load c = Ok data /\
    py_sample (trending_pool data) 3 seed0 = Ok (sample, seed1) /\
    (length (set_list (matched data beach_keywords sample)) <= 30 ->
     forall h, h ∈ beach_tags <-> h ∈ matched data beach_keywords sample).
Proof. split; [exact beach_run | exact (suggest_hashtags_complete _ _ _ _ _ _ beach_run)]. Defined.

Lemma suggest_hashtags_refines_witness :
  suggest_hashtags beach_caption (files beach_dict) seed0 = Ok ((beach_tags, beach_keywords), seed1) /\
  exists c data sample, files beach_dict hashtags_path = Some c /\ json_load c = Ok data /\
    py_sample (trending_pool data) 3 seed0 = Ok (sample, seed1) /\
    suggest_contract beach_caption data sample beach_tags beach_keywords.
Proof. split; [exact beach_run | exact (suggest_hashtags_refines _ _ _ _ _ _ beach_run)]. Defined.

(** A dictionary without a ["_trending"] key. *)
Definition no_trending_dict : HashtagDict := [(u "beach", TagList [u "#beach"])].

Lemma suggest_hashtags_errors_witness :
  suggest_hashtags beach_caption (fun _ => None) seed0 = Raise FileNotFoundError /\
  suggest_hashtags beach_caption (files no_trending_dict) seed0 = Raise ValueError.
Proof.
  destruct (suggest_hashtags_errors beach_caption (fun _ => None) seed0) as [H1 _].
  destruct (suggest_hashtags_errors beach_caption (files no_trending_dict) seed0) as [_ [_ H3]].
  split; [exact (H1 eq_refl) | exact (H3 (no_trending_dict : @file_contents dict_loader) no_trending_dict eq_refl eq_refl eq_refl eq_refl ltac:(simpl; lia))].
Defined.

Lemma suggest_hashtags_no_match_witness :
  exists tags rs', suggest_hashtags (u "sunset") (files beach_dict) seed0 =
      Ok ((tags, extract_keywords (u "sunset")), rs') /\
    length tags = 3 /\ (forall h, h ∈ tags -> h ∈ trending_pool beach_dict).
Proof.
  apply (suggest_hashtags_no_match _ _ _ (beach_dict : @file_contents dict_loader) beach_dict eq_refl eq_refl).
  - intros w key v Hw Hin. vm_compute in Hw.
    apply elem_of_cons in Hw as [-> | Hw]; [| by apply elem_of_nil in Hw].
    destruct (beach_dict_elem _ _ Hin) as [[-> _] | [-> _]]; vm_compute; reflexivity.
  - reflexivity.
  - apply (bool_decide_unpack _). vm_compute. reflexivity.
  - simpl. lia.
Defined.

Lemma suggest_hashtags_beach_witness :
  exists tags rs' s,
    suggest_hashtags beach_caption (files beach_dict) seed0 =
      Ok ((tags, extract_keywords beach_caption), rs') /\
    length tags = 4 /\ length s = 3 /\ NoDup s /\
    (forall h, h ∈ s -> h ∈ [u "#a"; u "#b"; u "#c"; u "#d"]) /\
    (forall h, h ∈ tags <-> h = u "#beach" \/ h ∈ s).
Proof.
  assert (Hk : extract_keywords beach_caption = beach_keywords) by (vm_compute; reflexivity).
  apply (suggest_hashtags_beach _ _ _ (beach_dict : @file_contents dict_loader) eq_refl eq_refl).
  - rewrite Hk. apply list_elem_of_here.
  - rewrite Hk. intros w Hw. each_keyword Hw.
Defined.

Lemma suggest_hashtags_order_independent_witness :
  @suggest_hashtags _ rev_order _ _ beach_caption (files beach_dict) seed0 =
    Ok (([u "#c"; u "#b"; u "#a"; u "#beach"], reverse beach_keywords), seed1) /\
  seed1 = seed1 /\ same_elems beach_keywords (reverse beach_keywords) /\
  length beach_tags = length [u "#c"; u "#b"; u "#a"; u "#beach"] /\
  (length beach_tags < 30 -> same_elems beach_tags [u "#c"; u "#b"; u "#a"; u "#beach"]).
Proof.
  assert (E : @suggest_hashtags _ rev_order _ _ beach_caption (files beach_dict) seed0 =
    Ok (([u "#c"; u "#b"; u "#a"; u "#beach"], reverse beach_keywords), seed1))
    by (vm_compute; reflexivity).
  split; [exact E |].
  exact (suggest_hashtags_order_independent remove_dups_order rev_order _ _ _ _ _ _ _ _ _ beach_run E).
Defined.

(** ** What the specification's examples do not cover *)

(** The witness of [suggest_hashtags_duplicate_trending]. *)
Definition dup_trending_dict : HashtagDict :=
  [(u "beach", TagList [u "#beach"]); (trending_key, TagList [u "#a"; u "#a"; u "#b"])].

Lemma suggest_hashtags_duplicate_trending_witness :
  exists tags rs', suggest_hashtags (u "sunset") (files dup_trending_dict) seed0 =
      Ok ((tags, extract_keywords (u "sunset")), rs') /\
    length tags = 2 /\ (forall h, h ∈ tags <-> h = u "#a" \/ h = u "#b").
Proof.
  apply (suggest_hashtags_duplicate_trending _ _ _
           (dup_trending_dict : @file_contents dict_loader) dup_trending_dict _ _ eq_refl eq_refl);
    [| reflexivity | by apply (bool_decide_unpack _); vm_compute].
  intros w key v Hw Hin. vm_compute in Hw.
  apply list_elem_of_singleton in Hw as ->. unfold dup_trending_dict in Hin.
  apply elem_of_cons in Hin as [[= -> _] | [[= -> _] | []%elem_of_nil]%elem_of_cons];
    vm_compute; reflexivity.
Defined.

(** The witness of [suggest_hashtags_trending_keyword]: the keyword
    "trending" with the dictionary of the specification. *)
Lemma suggest_hashtags_trending_keyword_witness :
  suggest_hashtags (u "trending") (files beach_dict) seed0 =
    Ok (([u "#d"; u "#a"; u "#b"; u "#c"], [u "trending"]), seed1) /\
  forall h, h ∈ [u "#a"; u "#b"; u "#c"; u "#d"] -> h ∈ [u "#d"; u "#a"; u "#b"; u "#c"].
Proof.
  assert (Hrun : suggest_hashtags (u "trending") (files beach_dict) seed0 =
    Ok (([u "#d"; u "#a"; u "#b"; u "#c"], [u "trending"]), seed1)) by (vm_compute; reflexivity).
  split; [exact Hrun |].
  apply (suggest_hashtags_trending_keyword _ _ _ _ _ _ _ (u "trending") Hrun).
  - exists (beach_dict : @file_contents dict_loader), beach_dict. split; [reflexivity |].
    split; reflexivity.
  - apply list_elem_of_here.
  - reflexivity.
  - simpl. lia.
Defined.

(** ** Values outside the specification's data model *)

(** A number (or [true], [false], [null]) under the key ["beach"]. *)
Definition scalar_dict : HashtagDict :=
  [(u "beach", TagScalar); (trending_key, TagList [u "#a"; u "#b"; u "#c"])].

Lemma suggest_hashtags_type_errors_witness :
  files scalar_dict hashtags_path = Some (scalar_dict : @file_contents dict_loader) /\
  suggest_hashtags beach_caption (files scalar_dict) seed0 = Raise TypeError.
Proof.
  split; [reflexivity |].
  refine (proj1 (suggest_hashtags_type_errors beach_caption (files scalar_dict) seed0
                   (scalar_dict : @file_contents dict_loader) scalar_dict eq_refl eq_refl) _).
  exists (u "beach"). split; [| reflexivity].
  apply (bool_decide_unpack _). vm_compute. exact I.
Defined.

(** An object under ["beach"] and a number under a key no keyword reaches. *)
Definition object_dict : HashtagDict :=
  [(u "beach", TagObj [u "#sand"; u "#sun"]); (u "mountain", TagScalar);
   (trending_key, TagList [u "#a"; u "#b"; u "#c"])].

(** [matched += value] with an object value adds the object's keys as
    hashtags, and a value the loops never reach is never checked: the call
    succeeds. *)
Theorem suggest_hashtags_object_keys :
  suggest_hashtags beach_caption (files object_dict) seed0 =
    Ok (([u "#sand"; u "#sun"; u "#a"; u "#b"; u "#c"], beach_keywords), seed1).
Proof. vm_compute. reflexivity. Qed.

(** A trending object: the loops pass, [random.sample] refuses it. *)
Theorem suggest_hashtags_trending_object :
  suggest_hashtags beach_caption
    (files [(u "beach", TagList [u "#beach"]); (trending_key, TagObj [u "#a"; u "#b"; u "#c"])])
    seed0 = Raise TypeError.
Proof. vm_compute. reflexivity. Qed.

End HashtagFixtures.
