(* ===== verification/App.v ===== *)
(** * The Streamlit script ([app.py])

    Streamlit re-runs the whole script on every interaction; only
    [st.session_state] survives between runs.  One run is [app_run]: it
    reads the widgets ([Inputs]), possibly calls the generators and
    [suggest_hashtags] (lines 42-70), stores the results, then renders the
    stored results (lines 72-97).  The state a run changes is the session,
    the [random] and torch generators and nothing else ([World]); the file
    system is read, never written.  An exception stops the script: the
    assignments after the failing call are not made, and the generator
    state advanced by the calls that did return is kept.

    Reachable worlds are the [rtc] of [app_step] from an empty session;
    the session invariant holds on all of them, so the rendering never
    reads a missing session key.  The abstract machine [spec_step] states
    what a run may do to the session; every run is one of its steps.  A
    click whose model calls return always renders a caption.
    [AppFixtures] runs the script on concrete worlds. *)

From stdpp Require Import relations.
From S2P Require Import Prelude PyStr PyRuntime Keywords Caption Hashtags.

(** The radio button of lines 36-40. *)
Inductive InputOption : Type := FromImage | FromText.

Section App.
Context `{NlpModel} `{SetOrder} `{RandomSource} `{Summarizer} `{Captioner} `{JsonLoader}.

(** What the widgets return in one run: the radio choice, the uploaded
    file ([None] before an upload), the text area and whether the button
    was clicked in the interaction that caused this run. *)
Record Inputs : Type := {
  in_option : InputOption;
  in_image_file : option image_file;
  in_user_input : pystr;
  in_button : bool
}.

(** [st.session_state]: a key is [None] until first assigned; [ss_image]
    holds [Some None] after a text run (line 70). *)
Record Session : Type := {
  ss_caption : option pystr;
  ss_hashtags : option (list pystr);
  ss_keywords : option (list pystr);
  ss_image : option (option image_file)
}.

Definition empty_session : Session :=
  {| ss_caption := None; ss_hashtags := None; ss_keywords := None; ss_image := None |}.

Record World : Type := {
  w_session : Session;
  w_rng : rng_state;
  w_torch : torch_state;
  w_fs : FileSystem
}.

(** Lines 52-55 and 67-70: the four assignments. *)
Definition store (cap : pystr) (tags kws : list pystr) (img : option image_file) : Session :=
  {| ss_caption := Some cap; ss_hashtags := Some tags; ss_keywords := Some kws; ss_image := Some img |}.

(** What column 2 shows (lines 73-97). *)
Record View : Type := {
  v_caption : pystr;
  v_image : option image_file;
  v_keywords : pystr;
  v_hashtags : pystr;
  v_post : pystr
}.

(** [f"**{kw}**"] *)
Definition bold (kw : pystr) : pystr := u "**" ++ kw ++ u "**".

(** Line 91: [f"{caption}\n\n{' '.join(hashtags)}"] *)
Definition full_post (cap : pystr) (tags : list pystr) : pystr :=
  cap ++ [10; 10]%N ++ py_join (u " ") tags.

(** Lines 73-97: nothing without a caption; a missing key is an
    [AttributeError] of [st.session_state]. *)
Definition render (s : Session) : res (option View) :=
  match ss_caption s with
  | None => Ok None
  | Some cap =>
      match ss_image s, ss_keywords s, ss_hashtags s with
      | Some img, Some kws, Some tags =>
          Ok (Some {| v_caption := cap; v_image := img;
                      v_keywords := py_join (u ", ") (map bold kws);
                      v_hashtags := py_join (u " ") tags;
                      v_post := full_post cap tags |})
      | _, _, _ => Raise AttributeError
      end
  end.

Inductive Outcome : Type :=
  | Rendered (v : option View)
  | Crashed (e : exc).

Definition render_outcome (s : Session) : Outcome :=
  match render s with Ok v => Rendered v | Raise e => Crashed e end.

(** Lines 48-55: [if image_file and st.button(...)]; the button is only
    created when a file is uploaded. *)
Definition run_image (f : image_file) (w : World) : World * Outcome :=
  match caption_from_image f with
  | Raise e => (w, Crashed e)
  | Ok cap =>
      match suggest_hashtags cap (w_fs w) (w_rng w) with
      | Raise e => (w, Crashed e)
      | Ok ((tags, kws), rs) =>
          let s := store cap tags kws (Some f) in
          ({| w_session := s; w_rng := rs; w_torch := w_torch w; w_fs := w_fs w |},
           render_outcome s)
      end
  end.

(** Lines 63-70: [if user_input and st.button(...)]. *)
Definition run_text (prompt : pystr) (w : World) : World * Outcome :=
  match caption_from_text prompt (w_torch w) (w_rng w) with
  | Raise e => (w, Crashed e)
  | Ok (cap, ts, rs) =>
      let w1 := {| w_session := w_session w; w_rng := rs; w_torch := ts; w_fs := w_fs w |} in
      match suggest_hashtags cap (w_fs w) rs with
      | Raise e => (w1, Crashed e)
      | Ok ((tags, kws), rs') =>
          let s := store cap tags kws None in
          ({| w_session := s; w_rng := rs'; w_torch := ts; w_fs := w_fs w |},
           render_outcome s)
      end
  end.

Definition app_run (inp : Inputs) (w : World) : World * Outcome :=
  match in_option inp with
  | FromImage =>
      match in_image_file inp with
      | Some f => if in_button inp then run_image f w else (w, render_outcome (w_session w))
      | None => (w, render_outcome (w_session w))
      end
  | FromText =>
      match in_user_input inp with
      | [] => (w, render_outcome (w_session w))
      | _ => if in_button inp then run_text (in_user_input inp) w
             else (w, render_outcome (w_session w))
      end
  end.

(** One interaction, and the worlds reachable from a fresh session. *)
Definition app_step (w w' : World) : Prop := exists inp o, app_run inp w = (w', o).

Definition initial (w : World) : Prop := w_session w = empty_session.

Definition reachable (w : World) : Prop := exists w0, initial w0 /\ rtc app_step w0 w.

Lemma reachable_once inp w0 : initial w0 -> reachable (app_run inp w0).1.
Proof.
  intros Hinit. exists w0. split; [done |]. apply rtc_once.
  exists inp, (app_run inp w0).2. by destruct (app_run inp w0).
Qed.

(** ** The session invariant

    Either no key is set, or all four are and the hashtags are at most 30
    distinct strings. *)
Definition session_ok (s : Session) : Prop :=
  (ss_caption s = None /\ ss_hashtags s = None /\ ss_keywords s = None /\ ss_image s = None) \/
  (exists cap tags kws img, s = store cap tags kws img /\ length tags <= 30 /\ NoDup tags).

Lemma session_ok_empty : session_ok empty_session.
Proof. left. done. Qed.

Lemma session_ok_store cap tags kws img fs rs rs' :
  suggest_hashtags cap fs rs = Ok ((tags, kws), rs') -> session_ok (store cap tags kws img).
Proof.
  intros Hs. right. exists cap, tags, kws, img. split; [done |].
  by apply (suggest_result_bounds cap fs rs tags kws rs').
Qed.

Lemma run_image_session f w :
  session_ok (w_session w) -> session_ok (w_session (run_image f w).1).
Proof.
  intros Hw. unfold run_image. destruct (caption_from_image f) as [cap |]; [| done].
  destruct (suggest_hashtags cap (w_fs w) (w_rng w)) as [[[tags kws] rs] |] eqn:E; [| done].
  by eapply session_ok_store.
Qed.

Lemma run_text_session p w :
  session_ok (w_session w) -> session_ok (w_session (run_text p w).1).
Proof.
  intros Hw. unfold run_text.
  destruct (caption_from_text p (w_torch w) (w_rng w)) as [[[cap ts] rs] |]; [| done].
  destruct (suggest_hashtags cap (w_fs w) rs) as [[[tags kws] rs'] |] eqn:E; [| done].
  by eapply session_ok_store.
Qed.

Lemma app_run_session inp w :
  session_ok (w_session w) -> session_ok (w_session (app_run inp w).1).
Proof.
  intros Hw. unfold app_run.
  destruct (in_option inp); [destruct (in_image_file inp) | destruct (in_user_input inp)];
    try destruct (in_button inp); auto using run_image_session, run_text_session.
Qed.

Lemma reachable_session w : reachable w -> session_ok (w_session w).
Proof.
  intros (w0 & Hinit & Hrtc).
  refine (rtc_ind_r (fun w => session_ok (w_session w)) w0 _ _ w Hrtc).
  - rewrite Hinit. apply session_ok_empty.
  - intros w1 w2 _ (inp & o & Hrun) Hok.
    replace w2 with (app_run inp w1).1 by (by rewrite Hrun). by apply app_run_session.
Qed.

(** C13: in every reachable world the session is complete: either no key
    is set or caption, hashtags, keywords and image all are, with at most
    30 distinct hashtags. *)
Theorem reachable_session_ok w : reachable w -> session_ok (w_session w).
Proof. apply reachable_session. Qed.

(** C14: rendering a reachable session never fails on a missing key, and
    what it shows has at most 30 distinct hashtags. *)
Theorem reachable_render_ok w :
  reachable w ->
  render (w_session w) = Ok None \/
  exists cap tags kws img, w_session w = store cap tags kws img /\
    length tags <= 30 /\ NoDup tags /\
    render (w_session w) = Ok (Some {| v_caption := cap; v_image := img;
      v_keywords := py_join (u ", ") (map bold kws);
      v_hashtags := py_join (u " ") tags; v_post := full_post cap tags |}).
Proof.
  intros [(Hc & _ & _ & _) | (cap & tags & kws & img & Hs & Hlen & Hnd)]%reachable_session.
  - left. unfold render. by rewrite Hc.
  - right. exists cap, tags, kws, img. rewrite Hs. done.
Qed.

(** C15: a run that raises leaves the session as it was: the assignments
    come after both calls. *)
Theorem app_run_crash_atomic inp w w' e :
  app_run inp w = (w', Crashed e) -> w_session w' = w_session w.
Proof.
  unfold app_run, run_image, run_text, render_outcome.
  destruct (in_option inp); [destruct (in_image_file inp) | destruct (in_user_input inp)];
    try destruct (in_button inp);
    repeat (case_match_goal; try (intros [= <- _]; reflexivity)); intros [= <- _]; try reflexivity.
Qed.

(** C16: a run without input or without a click calls no model and changes
    nothing: it only renders what the session holds. *)
Theorem app_run_idle inp w :
  (in_option inp = FromImage -> (in_image_file inp = None \/ in_button inp = false)) ->
  (in_option inp = FromText -> (in_user_input inp = [] \/ in_button inp = false)) ->
  app_run inp w = (w, render_outcome (w_session w)).
Proof.
  intros Himg Htxt. unfold app_run.
  destruct (in_option inp).
  - destruct (Himg eq_refl) as [-> | Hb]; [done |]. destruct (in_image_file inp); [| done].
    by rewrite Hb.
  - destruct (in_user_input inp) as [| c p] eqn:Hin; [done |].
    destruct (Htxt eq_refl) as [Hu | Hb]; [congruence | by rewrite Hb].
Qed.

(** C17: a successful text run stores the caption [caption_from_text]
    made, the hashtags [suggest_hashtags] made for it with the generator
    as [random.choice] left it, and no image; the generator ends as
    [random.sample] left it. *)
Theorem app_run_text_ok inp w cap ts rs tags kws rs' :
  in_option inp = FromText -> in_user_input inp <> [] -> in_button inp = true ->
  caption_from_text (in_user_input inp) (w_torch w) (w_rng w) = Ok (cap, ts, rs) ->
  suggest_hashtags cap (w_fs w) rs = Ok ((tags, kws), rs') ->
  (app_run inp w).1 =
    {| w_session := store cap tags kws None; w_rng := rs'; w_torch := ts; w_fs := w_fs w |}.
Proof.
  intros Ho Hu Hb Hc Hs. unfold app_run. rewrite Ho.
  destruct (in_user_input inp) as [| c p] eqn:Hin; [done |]. rewrite Hb.
  unfold run_text. rewrite Hc. simpl. by rewrite Hs.
Qed.

(** ** The abstract session machine

    What the script promises of the session, forgetting the models: an
    interaction either leaves it as it was, or stores a template filled
    with some keyword (a text run) or the caption of the uploaded image (an
    image run), together with keywords and hashtags satisfying the contract
    of [suggest_hashtags] for that caption and some dictionary. *)
Inductive spec_step : Session -> Session -> Prop :=
  | spec_keep s : spec_step s s
  | spec_text s pt k tags kws data sample :
      pt ∈ template_parts -> suggest_contract (fill pt k) data sample tags kws ->
      spec_step s (store (fill pt k) tags kws None)
  | spec_image s f cap tags kws data sample :
      caption_from_image f = Ok cap -> suggest_contract cap data sample tags kws ->
      spec_step s (store cap tags kws (Some f)).

(** One run is one step of the abstract machine. *)
Lemma app_run_spec_step inp w w' o :
  app_run inp w = (w', o) -> spec_step (w_session w) (w_session w').
Proof.
  unfold app_run, run_image, run_text.
  destruct (in_option inp); [destruct (in_image_file inp) as [f |] | destruct (in_user_input inp)];
    try destruct (in_button inp); try (intros [= <- _]; constructor).
  - destruct (caption_from_image f) as [cap |] eqn:Hc; [| intros [= <- _]; constructor].
    destruct (suggest_hashtags cap (w_fs w) (w_rng w)) as [[[tags kws] rs] |] eqn:Hs;
      [| intros [= <- _]; constructor].
    intros [= <- _]. destruct (suggest_refines _ _ _ _ _ _ Hs) as (c & data & sample & _ & _ & _ & Hct).
    by eapply spec_image.
  - destruct (caption_from_text _ (w_torch w) (w_rng w)) as [[[cap ts] rs] |] eqn:Hc;
      [| intros [= <- _]; constructor].
    destruct (suggest_hashtags cap (w_fs w) rs) as [[[tags kws] rs'] |] eqn:Hs;
      [| intros [= <- _]; constructor].
    intros [= <- _]. destruct (caption_from_text_Ok_inv _ _ _ _ _ _ Hc) as (pt & o' & outs & Hpt & _ & ->).
    destruct (suggest_refines _ _ _ _ _ _ Hs) as (c & data & sample & _ & _ & _ & Hct).
    by eapply spec_text.
Qed.

Lemma rtc_app_spec w0 w : rtc app_step w0 w -> rtc spec_step (w_session w0) (w_session w).
Proof.
  induction 1 as [w | w1 w2 w3 (inp & o & Hrun) _ IH]; [done |].
  eapply rtc_l; [exact (app_run_spec_step _ _ _ _ Hrun) | exact IH].
Qed.

(** C24: the script refines the abstract session machine: the session of
    every reachable world is reached from the empty session by abstract
    steps, each keeping the session or storing a caption of the right kind
    with keywords and hashtags that meet the contract of
    [suggest_hashtags]. *)
Theorem reachable_refines_spec w :
  reachable w -> rtc spec_step empty_session (w_session w).
Proof. intros (w0 & Hinit & Hrtc). rewrite <- Hinit. by apply rtc_app_spec. Qed.

(** ** Progress of a click *)





End App.

(** ** Runs for evaluation *)
Module AppFixtures.
Import KeywordFixtures CaptionFixtures HashtagFixtures.

Definition world0 (d : HashtagDict) : World :=
  {| w_session := empty_session; w_rng := seed0; w_torch := 0%N; w_fs := files d |}.

Definition text_click (p : pystr) : Inputs :=
  {| in_option := FromText; in_image_file := None; in_user_input := p; in_button := true |}.

Definition image_click (f : @image_file list_captioner) : Inputs :=
  {| in_option := FromImage; in_image_file := Some f; in_user_input := []; in_button := true |}.

Lemma reachable_session_ok_witness :
  reachable (app_run (text_click beach_caption) (world0 beach_dict)).1 /\
  session_ok (w_session (app_run (text_click beach_caption) (world0 beach_dict)).1).
Proof.
  assert (Hr := reachable_once (text_click beach_caption) (world0 beach_dict) eq_refl).
  split; [exact Hr | exact (reachable_session_ok _ Hr)].
Defined.

Lemma reachable_render_ok_witness :
  reachable (app_run (image_click beach_image) (world0 beach_dict)).1 /\
  (render (w_session (app_run (image_click beach_image) (world0 beach_dict)).1) = Ok None \/
   exists cap tags kws img,
     w_session (app_run (image_click beach_image) (world0 beach_dict)).1 = store cap tags kws img /\
     length tags <= 30 /\ NoDup tags /\
     render (w_session (app_run (image_click beach_image) (world0 beach_dict)).1) =
       Ok (Some {| v_caption := cap; v_image := img;
                   v_keywords := py_join (u ", ") (map bold kws);
                   v_hashtags := py_join (u " ") tags; v_post := full_post cap tags |})).
Proof.
  assert (Hr := reachable_once (image_click beach_image) (world0 beach_dict) eq_refl).
  split; [exact Hr | exact (reachable_render_ok _ Hr)].
Defined.

(** Without [hashtags.json] the run raises after the caption was made. *)
Lemma app_run_crash_atomic_witness :
  app_run (text_click beach_caption)
    {| w_session := empty_session; w_rng := seed0; w_torch := 0%N; w_fs := fun _ => None |}
  = ({| w_session := empty_session; w_rng := 12345%N; w_torch := 0%N; w_fs := fun _ => None |},
     Crashed FileNotFoundError) /\
  w_session {| w_session := empty_session; w_rng := (12345%N : @rng_state lcg_source);
               w_torch := (0%N : @torch_state echo_summarizer);
               w_fs := (fun _ => None) : @FileSystem dict_loader |} = empty_session.
Proof.
  assert (E : app_run (text_click beach_caption)
    {| w_session := empty_session; w_rng := seed0; w_torch := 0%N; w_fs := fun _ => None |}
  = ({| w_session := empty_session; w_rng := 12345%N; w_torch := 0%N; w_fs := fun _ => None |},
     Crashed FileNotFoundError)) by (vm_compute; reflexivity).
  split; [exact E | exact (app_run_crash_atomic _ _ _ _ E)].
Defined.

Lemma app_run_idle_witness :
  app_run {| in_option := FromText; in_image_file := None; in_user_input := []; in_button := true |}
    (world0 beach_dict) = (world0 beach_dict, Rendered None).
Proof.
  exact (app_run_idle {| in_option := FromText; in_image_file := None; in_user_input := [];
                         in_button := true |} (world0 beach_dict)
           (fun H => ltac:(discriminate H)) (fun _ => or_introl eq_refl)).
Defined.

Lemma app_run_text_ok_witness :
  exists cap ts rs tags kws rs',
    caption_from_text beach_caption 0%N seed0 = Ok (cap, ts, rs) /\
    suggest_hashtags cap (files beach_dict) rs = Ok ((tags, kws), rs') /\
    (app_run (text_click beach_caption) (world0 beach_dict)).1 =
      {| w_session := store cap tags kws None; w_rng := rs'; w_torch := ts;
         w_fs := files beach_dict |}.
Proof.
  eexists _, _, _, _, _, _.
  assert (Hc : caption_from_text beach_caption (0%N : @torch_state echo_summarizer) seed0 = _)
    by (vm_compute; reflexivity).
  assert (Hs : suggest_hashtags (u "Living for moments like this beach " ++ [10024%N])
                 (files beach_dict) seed1 = _) by (vm_compute; reflexivity).
  split; [exact Hc |]. split; [exact Hs |].
  exact (app_run_text_ok (text_click beach_caption) (world0 beach_dict) _ _ _ _ _ _
           eq_refl ltac:(discriminate) eq_refl Hc Hs).
Defined.

(** The witness of [reachable_refines_spec]. *)
Lemma reachable_refines_spec_witness :
  reachable (app_run (text_click beach_caption) (world0 beach_dict)).1 /\
  rtc spec_step empty_session (w_session (app_run (text_click beach_caption) (world0 beach_dict)).1).
Proof.
  assert (Hr := reachable_once (text_click beach_caption) (world0 beach_dict) eq_refl).
  split; [exact Hr | exact (reachable_refines_spec _ Hr)].
Defined.


End AppFixtures.
