(* ===== verification/Loading.v ===== *)
(** * Loading the models at import time ([caption_utils.py] lines 7-11)

    [app.py] line 2 imports [caption_utils], whose top level loads the
    spaCy pipeline, the BART summariser and the BLIP processor and model,
    in this order.  Each load raises [OSError] when the model is neither
    installed nor downloadable.  Python keeps a module in [sys.modules]
    only when its import succeeded, so the comment "Load models once" holds
    for a successful import: later reruns of the script reuse the module.
    A failing import stops the run at line 2, before anything is drawn,
    and is attempted again by the next rerun.

    The process is [Proc]: whether [caption_utils] is imported, how many
    times its top level has run, and the [World] of [App].  The loaded
    models are the instances the [App] section is parameterised by. *)

From S2P Require Import Prelude PyStr PyRuntime Keywords Caption Hashtags App.

(** The four [from_pretrained]/[load] calls, in the order of the file. *)
Inductive ModelName : Type :=
  | SpacyModel
  | BartModel
  | BlipProcessorModel
  | BlipCaptionModel.

#[export] Instance ModelName_eq_dec : EqDecision ModelName.
Proof. solve_decision. Defined.

(** The model identifiers of lines 8-11. *)
Definition model_id (m : ModelName) : pystr :=
  match m with
  | SpacyModel => u "en_core_web_sm"
  | BartModel => u "facebook/bart-large-cnn"
  | BlipProcessorModel | BlipCaptionModel => u "Salesforce/blip-image-captioning-large"
  end.

Definition load_order : list ModelName :=
  [SpacyModel; BartModel; BlipProcessorModel; BlipCaptionModel].

(** Which models can be loaded (installed, cached or downloadable). *)
Definition ModelAvail : Type := ModelName -> bool.

(** One load: [OSError] for a model that cannot be loaded. *)
Definition load_model (avail : ModelAvail) (m : ModelName) : res unit :=
  if avail m then Ok tt else Raise OSError.

(** Lines 8-11 run top to bottom; the first failing load stops the
    module. *)
Fixpoint load_all (avail : ModelAvail) (ms : list ModelName) : res unit :=
  match ms with
  | [] => Ok tt
  | m :: ms' => _ <- load_model avail m ;; load_all avail ms'
  end.

Definition import_caption_utils (avail : ModelAvail) : res unit :=
  load_all avail load_order.

Section Script.
Context `{NlpModel} `{SetOrder} `{RandomSource} `{Summarizer} `{Captioner} `{JsonLoader}.

Record Proc : Type := {
  p_imported : bool;
  p_loads : nat;
  p_world : World
}.

(** A rerun of [app.py]: line 2 imports [caption_utils] unless it is in
    [sys.modules]; then the rest of the script runs. *)
Definition script_run (avail : ModelAvail) (inp : Inputs) (p : Proc) : Proc * Outcome :=
  if p_imported p then
    let r := app_run inp (p_world p) in
    ({| p_imported := true; p_loads := p_loads p; p_world := r.1 |}, r.2)
  else
    match import_caption_utils avail with
    | Raise e => ({| p_imported := false; p_loads := S (p_loads p); p_world := p_world p |}, Crashed e)
    | Ok _ =>
        let r := app_run inp (p_world p) in
        ({| p_imported := true; p_loads := S (p_loads p); p_world := r.1 |}, r.2)
    end.

(** A sequence of interactions, one rerun each. *)
Fixpoint script_trace (avail : ModelAvail) (inps : list Inputs) (p : Proc)
    : Proc * list Outcome :=
  match inps with
  | [] => (p, [])
  | inp :: inps' =>
      let r := script_run avail inp p in
      let t := script_trace avail inps' r.1 in
      (t.1, r.2 :: t.2)
  end.

(** The same interactions on an imported module: [app_run] alone. *)
Fixpoint app_trace (inps : list Inputs) (w : World) : World * list Outcome :=
  match inps with
  | [] => (w, [])
  | inp :: inps' =>
      let r := app_run inp w in
      let t := app_trace inps' r.1 in
      (t.1, r.2 :: t.2)
  end.

End Script.

(** ** Lemmas *)

Lemma load_all_ok avail ms :
  load_all avail ms = Ok tt <-> Forall (fun m => avail m = true) ms.
Proof.
  induction ms as [|m ms IH]; simpl; [split; [constructor | done] |].
  rewrite Forall_cons_iff, <- IH. unfold load_model.
  destruct (avail m); simpl; [split; [auto | intros [_ Hl]; exact Hl] | split; [discriminate | intros [[=] _]]].
Qed.

Lemma load_all_raise avail ms e : load_all avail ms = Raise e -> e = OSError.
Proof.
  induction ms as [|m ms IH]; simpl; [discriminate |].
  unfold load_model. destruct (avail m); simpl; [exact IH | by intros [= <-]].
Qed.

Lemma load_order_all m : m ∈ load_order.
Proof. unfold load_order. destruct m; repeat (apply list_elem_of_here || apply elem_of_cons; right). Qed.

(** The import succeeds exactly when every model can be loaded, and
    otherwise fails with [OSError]. *)
Lemma import_cases avail :
  ((forall m, avail m = true) /\ import_caption_utils avail = Ok tt) \/
  ((exists m, avail m = false) /\ import_caption_utils avail = Raise OSError).
Proof.
  unfold import_caption_utils.
  destruct (load_all avail load_order) as [[] | e] eqn:E.
  - left. split; [| done]. intros m. apply load_all_ok in E.
    rewrite Forall_forall in E. apply E, list_elem_of_In, load_order_all.
  - right. rewrite (load_all_raise _ _ _ E). split; [| done].
    destruct (decide (Forall (fun m => avail m = true) load_order)) as [Hall | Hno].
    + apply load_all_ok in Hall. congruence.
    + apply not_Forall_Exists in Hno; [| intros m; apply _].
      apply Exists_exists in Hno as (m & _ & Hm). exists m. by apply not_true_is_false.
Qed.

Section ScriptLemmas.
Context `{NlpModel} `{SetOrder} `{RandomSource} `{Summarizer} `{Captioner} `{JsonLoader}.

(** Once imported, a trace is the trace of [app_run] and loads nothing. *)
Lemma script_trace_imported avail inps p :
  p_imported p = true ->
  script_trace avail inps p =
    ({| p_imported := true; p_loads := p_loads p; p_world := (app_trace inps (p_world p)).1 |},
     (app_trace inps (p_world p)).2).
Proof.
  revert p; induction inps as [|inp inps IH]; intros [[] n w] Himp; simpl in *;
    [done | done | | done].
  rewrite IH by reflexivity. reflexivity.
Qed.

(** C29: "Load models once": when every model can be loaded, a process
    that has not imported [caption_utils] runs its top level exactly once
    over any non-empty sequence of interactions, and every rerun does what
    [app_run] does. *)
Theorem script_loads_once avail inps p :
  (forall m, avail m = true) -> inps <> [] -> p_imported p = false ->
  script_trace avail inps p =
    ({| p_imported := true; p_loads := S (p_loads p); p_world := (app_trace inps (p_world p)).1 |},
     (app_trace inps (p_world p)).2).
Proof.
  intros Hall Hne Himp.
  destruct (import_cases avail) as [[_ Hok] | [(m & Hm) _]]; [| by rewrite Hall in Hm].
  destruct inps as [|inp inps]; [done |]. destruct p as [imp n w]. simpl in Himp. subst imp.
  cbn [script_trace script_run p_imported]. rewrite Hok.
  rewrite script_trace_imported by reflexivity. reflexivity.
Qed.

(** C30: when a model cannot be loaded every rerun imports again, fails
    with [OSError] at line 2 before drawing anything, and leaves the world
    (session, generators) as it was. *)
Theorem script_missing_model avail inps p m :
  avail m = false -> p_imported p = false ->
  script_trace avail inps p =
    ({| p_imported := false; p_loads := p_loads p + length inps; p_world := p_world p |},
     map (fun _ => Crashed OSError) inps).
Proof.
  intros Hm Himp.
  destruct (import_cases avail) as [[Hall _] | [_ Hraise]]; [by rewrite Hall in Hm |].
  destruct p as [imp n w]. simpl in Himp. subst imp.
  revert n; induction inps as [|inp inps IH]; intros n; cbn [script_trace length map].
  - by rewrite Nat.add_0_r.
  - cbn [script_run p_imported p_loads p_world]. rewrite Hraise. cbn [fst snd].
    rewrite IH. cbn [p_loads]. rewrite Nat.add_succ_comm. reflexivity.
Qed.

End ScriptLemmas.

(** ** Runs for evaluation *)
Module LoadingFixtures.
Import KeywordFixtures CaptionFixtures HashtagFixtures AppFixtures.

Definition all_models : ModelAvail := fun _ => true.

(** The BART checkpoint is not cached and the machine is offline. *)
Definition no_bart : ModelAvail := fun m => bool_decide (m <> BartModel).

Definition fresh_proc : Proc :=
  {| p_imported := false; p_loads := 0; p_world := world0 beach_dict |}.

Lemma script_loads_once_witness :
  script_trace all_models [text_click beach_caption; image_click beach_image] fresh_proc =
    ({| p_imported := true; p_loads := 1;
        p_world := (app_trace [text_click beach_caption; image_click beach_image]
                      (world0 beach_dict)).1 |},
     (app_trace [text_click beach_caption; image_click beach_image] (world0 beach_dict)).2).
Proof.
  apply (script_loads_once all_models _ fresh_proc); [intros; reflexivity | discriminate | reflexivity].
Defined.

Lemma script_missing_model_witness :
  script_trace no_bart [text_click beach_caption; text_click beach_caption] fresh_proc =
    ({| p_imported := false; p_loads := 2; p_world := world0 beach_dict |},
     [Crashed OSError; Crashed OSError]).
Proof. exact (script_missing_model no_bart _ fresh_proc BartModel eq_refl eq_refl). Defined.

End LoadingFixtures.
